(** * ts-html-plugin: the XSS analysis of [src/util.ts]

    A shallow embedding of the tree walker, the element classifier, the
    expression analyzer and the type-safety oracle of [util.ts], and the
    properties of them that the specification states.

    The TypeScript compiler API is the external collaborator of this code.
    Its objects are modelled as data: a [Node] carries what the accessors
    used by [util.ts] return for it ([getText], [pos], [getStart], ...,
    the enumeration of [ts.forEachChild] and the one of [getChildren]), a
    [Type] carries its flags, symbols, union members and type arguments,
    and the [TypeChecker] is a record of the two methods that are called. *)

From Stdlib Require Import ZArith List Bool String Ascii Lia Permutation.
Import ListNotations.

Local Open Scope bool_scope.
Local Open Scope string_scope.
Local Open Scope Z_scope.

Set Implicit Arguments.

(** ** Source text and the two regular expressions *)

Module Text.

(** [s.startsWith(p)] *)
Definition startsWith (s p : string) : bool := String.prefix p s.

(** The character class [[A-Z]]. *)
Definition isUpper (c : ascii) : bool :=
  let n := nat_of_ascii c in (65 <=? n)%nat && (n <=? 90)%nat.

Definition isLower (c : ascii) : bool :=
  let n := nat_of_ascii c in (97 <=? n)%nat && (n <=? 122)%nat.

Definition isDigit (c : ascii) : bool :=
  let n := nat_of_ascii c in (48 <=? n)%nat && (n <=? 57)%nat.

(** The character class [\w], that is [[A-Za-z0-9_]]. *)
Definition isWord (c : ascii) : bool :=
  isUpper c || isLower c || isDigit c || Ascii.eqb c "_".

(** Case folding of the [i] flag on ASCII letters. *)
Definition toLower (c : ascii) : ascii :=
  if isUpper c then ascii_of_nat (nat_of_ascii c + 32) else c.

(** [p] is matched at the start of [s] under the [i] flag; [p] is given
    in lower case. *)
Fixpoint prefix_ci (p s : string) : bool :=
  match p with
  | EmptyString => true
  | String a p' =>
      match s with
      | EmptyString => false
      | String b s' => Ascii.eqb a (toLower b) && prefix_ci p' s'
      end
  end.

(** The longest run of [\w] characters at the start of [s], and what
    follows it. *)
Fixpoint spanWord (s : string) : string * string :=
  match s with
  | EmptyString => (EmptyString, EmptyString)
  | String c s' =>
      if isWord c
      then let (w, r) := spanWord s' in (String c w, r)
      else (EmptyString, s)
  end.

(** Every character is a [\w] character. *)
Fixpoint allWord (s : string) : bool :=
  match s with
  | EmptyString => true
  | String c s' => isWord c && allWord s'
  end.

(** The text in lower case. *)
Fixpoint lowerCase (s : string) : string :=
  match s with
  | EmptyString => EmptyString
  | String c s' => String (toLower c) (lowerCase s')
  end.

(** [const UPPERCASE = /[A-Z]/]: the pattern is not anchored, it is
    matched by any string that has an upper-case letter somewhere. *)
Fixpoint match_UPPERCASE (s : string) : bool :=
  match s with
  | EmptyString => false
  | String c s' => isUpper c || match_UPPERCASE s'
  end.

(** [const ESCAPE_HTML_REGEX = /^(\w+\.)?escapeHtml/i]: anchored at the
    start; either the optional group [\w+\.] is taken (the greedy run of
    word characters has to be followed by a dot, which is not a word
    character, so the run is the longest one) and [escapeHtml] follows
    it, or the group is skipped and the text starts with [escapeHtml]. *)
Definition match_ESCAPE_HTML_REGEX (s : string) : bool :=
  (let (w, r) := spanWord s in
   match w, r with
   | String _ _, String "." r' => prefix_ci "escapehtml" r'
   | _, _ => false
   end)
  || prefix_ci "escapehtml" s.

End Text.

(** ** The compiler's objects *)

(** [ts.SyntaxKind] of the operator token of a binary expression. *)
Inductive SyntaxKind : Type :=
| EqualsEqualsEqualsToken
| EqualsEqualsToken
| ExclamationEqualsEqualsToken
| ExclamationEqualsToken
| GreaterThanToken
| GreaterThanEqualsToken
| LessThanEqualsToken
| LessThanToken
| InstanceOfKeyword
| InKeyword
| AmpersandAmpersandToken
| BarBarToken
| QuestionQuestionToken
| PlusToken
| CommaToken
| EqualsToken
| OtherToken (code : nat).

(** A source file is compared by identity ([d.file === file]); it is
    modelled by its name. *)
Definition SourceFile := string.

(** What every node answers: [getText()], [pos] (the start of the node
    with its leading trivia), [getStart()] (the start of its first token),
    [getWidth()] and [getSourceFile()]. *)
Record NodeBase : Type := mkBase {
  getText : string;
  pos : Z;
  getStart : Z;
  getWidth : Z;
  getSourceFile : SourceFile
}.

(** [JsxOpeningElement]: [tagName] and [attributes.properties]. *)
Record JsxOpeningElement (N : Type) : Type := mkOpening {
  tagName : N;
  attributes : list N
}.

(** The kinds of node that [util.ts] tells apart, with the properties it
    reads from each of them. *)
Inductive Kind (N : Type) : Type :=
| JsxElement (openingElement : JsxOpeningElement N) (children : list N)
| JsxFragment (children : list N)
| JsxExpression (expression : option N)
| JsxText
| ParenthesizedExpression (expression : N)
| BinaryExpression (left : N) (operatorToken : SyntaxKind) (right : N)
| ConditionalExpression (condition whenTrue whenFalse : N)
| Identifier
| CallExpression
| OtherKind.

Arguments JsxText {N}.
Arguments Identifier {N}.
Arguments CallExpression {N}.
Arguments OtherKind {N}.

Unset Elimination Schemes.

(** A node: its base, its kind, the nodes [ts.forEachChild] enumerates and
    the nodes [node.getChildren()] returns. *)
Inductive Node : Type :=
| mkNode (base : NodeBase) (kind : Kind Node)
         (forEachChild : list Node) (getChildren : list Node).

(** [Symbol]: [escapedName] and [parent]. *)
Inductive Symbol : Type :=
| mkSymbol (escapedName : string) (parent : option Symbol).

(** [Type]: [flags], [aliasSymbol], [symbol], the answer of [isUnion()],
    [types] of a union and [resolvedTypeArguments]. *)
Inductive Type_ : Type :=
| mkType (flags : Z) (aliasSymbol : option Symbol) (symbol : option Symbol)
         (isUnion : bool) (types : list Type_)
         (resolvedTypeArguments : option (list Type_)).

Set Elimination Schemes.

Definition base (n : Node) : NodeBase := let (b, _, _, _) := n in b.
Definition kind (n : Node) : Kind Node := let (_, k, _, _) := n in k.
Definition forEachChild (n : Node) : list Node := let (_, _, l, _) := n in l.
Definition getChildren (n : Node) : list Node := let (_, _, _, l) := n in l.

Definition text (n : Node) : string := getText (base n).

Definition escapedName (s : Symbol) : string := let (n, _) := s in n.
Definition parent (s : Symbol) : option Symbol := let (_, p) := s in p.

Definition flags (t : Type_) : Z := let (f, _, _, _, _, _) := t in f.
Definition aliasSymbol (t : Type_) : option Symbol :=
  let (_, a, _, _, _, _) := t in a.
Definition symbol (t : Type_) : option Symbol :=
  let (_, _, s, _, _, _) := t in s.
Definition isUnion (t : Type_) : bool := let (_, _, _, u, _, _) := t in u.
Definition types (t : Type_) : list Type_ := let (_, _, _, _, l, _) := t in l.
Definition resolvedTypeArguments (t : Type_) : option (list Type_) :=
  let (_, _, _, _, _, r) := t in r.

(** The two methods of the type checker that are called. *)
Record TypeChecker : Type := mkChecker {
  getTypeAtLocation : Node -> option Type_;
  isArrayType : Type_ -> bool
}.

(** [ts.TypeFlags], of the TypeScript library: the bits that [util.ts]
    tests, and those of the number, string-literal and union types. *)
Module TypeFlags.
Definition Any : Z := Z.shiftl 1 0.
Definition String : Z := Z.shiftl 1 2.
Definition Number : Z := Z.shiftl 1 3.
Definition StringLiteral : Z := Z.shiftl 1 7.
Definition Object : Z := Z.shiftl 1 19.
Definition Union : Z := Z.shiftl 1 20.
End TypeFlags.

(** [type.flags & flag] as a condition. *)
Definition hasFlag (t : Type_) (flag : Z) : bool :=
  negb (Z.land (flags t) flag =? 0).

(** ** Kind tests *)

Definition isJsxElement (n : Node) : bool :=
  match kind n with JsxElement _ _ => true | _ => false end.

Definition isJsxFragment (n : Node) : bool :=
  match kind n with JsxFragment _ => true | _ => false end.

Definition isIdentifier (n : Node) : bool :=
  match kind n with Identifier => true | _ => false end.

Definition isCallExpression (n : Node) : bool :=
  match kind n with CallExpression => true | _ => false end.

(** [isJsx]: the node is a JSX element or fragment. *)
Definition isJsx (n : Node) : bool := isJsxElement n || isJsxFragment n.

(** ** The type-safety oracle *)

(** [s?.escapedName === name] for an optional symbol. *)
Definition named (s : option Symbol) (name : string) : bool :=
  match s with
  | Some s => String.eqb (escapedName s) name
  | None => false
  end.

(** [type.aliasSymbol] is there, is called [name] and its parent is called
    [parentName]. *)
Definition aliasIs (t : Type_) (name parentName : string) : bool :=
  match aliasSymbol t with
  | Some a => String.eqb (escapedName a) name && named (parent a) parentName
  | None => false
  end.

(** The last rule of [isSafeAttribute], on the text of the expression. *)
Definition textIsSafe (txt : string) : bool :=
  Text.startsWith txt "safe" || Text.match_ESCAPE_HTML_REGEX txt.

(** [isSafeAttribute] on a type that is there. *)
Fixpoint isSafeType (type : Type_) (expression : Node) (checker : TypeChecker)
  {struct type} : bool :=
  (* Any type is never safe *)
  if hasFlag type TypeFlags.Any then false
  (* Allows JSX.Element, only in method calls *)
  else if aliasIs type "Element" "JSX" && isCallExpression expression then true
  (* Allows Html.Children *)
  else if aliasIs type "Children" "Html" then true
  (* Union types are checked recursively *)
  else if isUnion type then
    match type with
    | mkType _ _ _ _ ts _ =>
        forallb (fun t => isSafeType t expression checker) ts
    end
  (* For Array or Promise, the type of the first generic *)
  else if isArrayType checker type || named (symbol type) "Promise" then
    match type with
    | mkType _ _ _ _ _ (Some (t :: _)) => isSafeType t expression checker
    | _ => true
    end
  (* Non string types cannot have XSS values *)
  else if negb (hasFlag type TypeFlags.String)
          && negb (hasFlag type TypeFlags.Object) then true
  else textIsSafe (text expression).

(** [isSafeAttribute(ts, type, expression, checker)], [type] being
    [Type | undefined]. *)
Definition isSafeAttribute (type : option Type_) (expression : Node)
  (checker : TypeChecker) : bool :=
  match type with
  | None => true
  | Some t => isSafeType t expression checker
  end.

(** ** Diagnostics *)

(** [ts.DiagnosticCategory]. *)
Inductive DiagnosticCategory : Type := Warning | Error | Suggestion | Message.

(** Modelled from the spec: the message catalogue [./errors], which gives
    each of its keys a stable code and a message text. [util.ts] names
    the four keys; a diagnostic records the key whose code and message it
    carries. *)
Inductive ErrorKey : Type := UnusedSafe | DoubleEscape | Xss | ComponentXss.

(** [ts.Diagnostic]; [file], [start] and [length] may be undefined in a
    diagnostic that the host already had in the list. *)
Record Diagnostic : Type := mkDiagnostic {
  category : DiagnosticCategory;
  error : ErrorKey;
  file : option SourceFile;
  length : option Z;
  start : option Z
}.

(** [diagnostic(node, error, category)] *)
Definition diagnostic (node : NodeBase) (error : ErrorKey)
  (category : DiagnosticCategory) : Diagnostic :=
  {| category := category;
     error := error;
     file := Some (getSourceFile node);
     length := Some (getWidth node);
     start := Some (getStart node) |}.

(** [getSafeAttribute(element)]: the first attribute whose text is [safe]. *)
Fixpoint getSafeAttribute_loop (properties : list Node) : option Node :=
  match properties with
  | [] => None
  | attribute :: rest =>
      if String.eqb (text attribute) "safe" then Some attribute
      else getSafeAttribute_loop rest
  end.

Definition getSafeAttribute (element : JsxOpeningElement Node) : option Node :=
  getSafeAttribute_loop (attributes element).

(** The [switch] of [diagnoseExpression]: the operators whose result is a
    boolean. *)
Definition resultsInBoolean (k : SyntaxKind) : bool :=
  match k with
  | EqualsEqualsEqualsToken
  | EqualsEqualsToken
  | ExclamationEqualsEqualsToken
  | ExclamationEqualsToken
  | GreaterThanToken
  | GreaterThanEqualsToken
  | LessThanEqualsToken
  | LessThanToken
  | InstanceOfKeyword
  | InKeyword => true
  | _ => false
  end.

(** [diagnostics.some((d) => d.start === safeAttribute.pos + 1 && d.file === file)] *)
Definition alreadyWarned (diagnostics : list Diagnostic) (safeAttribute : NodeBase)
  (file_ : SourceFile) : bool :=
  existsb
    (fun d =>
       match start d, file d with
       | Some s, Some f => (s =? pos safeAttribute + 1) && String.eqb f file_
       | _, _ => false
       end)
    diagnostics.

(** [exp.expression?.getText().match(ESCAPE_HTML_REGEX)] for a child [exp]
    that is a [JsxExpression]; false for any other child. *)
Definition usesEscapeHtml (exp : Node) : bool :=
  match kind exp with
  | JsxExpression (Some e) => Text.match_ESCAPE_HTML_REGEX (text e)
  | _ => false
  end.

(** One turn of the loop over the children of an element that has the
    [safe] attribute. *)
Definition safeModeStep (checker : TypeChecker) (safeAttribute : NodeBase)
  (file_ : SourceFile) (diagnostics : list Diagnostic) (exp : Node)
  : list Diagnostic :=
  if isJsxElement exp || usesEscapeHtml exp then
    diagnostics ++ [diagnostic safeAttribute DoubleEscape Error]
  else
    match kind exp with
    | JsxExpression (Some e) =>
        if isSafeAttribute (getTypeAtLocation checker e) e checker
           && negb (Text.startsWith (text e) "unsafe")
           && negb (alreadyWarned diagnostics safeAttribute file_)
        then diagnostics ++ [diagnostic safeAttribute UnusedSafe Warning]
        else diagnostics
    | _ => diagnostics
    end.

(** The part of [diagnoseJsxElement] for an element that has the [safe]
    attribute. *)
Definition safeMode (checker : TypeChecker) (safeAttribute : NodeBase)
  (file_ : SourceFile) (children : list Node) (diagnostics : list Diagnostic)
  : list Diagnostic :=
  match children with
  | [] => diagnostics ++ [diagnostic safeAttribute UnusedSafe Warning]
  | [mkNode _ JsxText _ _] =>
      diagnostics ++ [diagnostic safeAttribute UnusedSafe Warning]
  | _ => fold_left (safeModeStep checker safeAttribute file_) children diagnostics
  end.

(** [!!tagName.getText().match(UPPERCASE)] for an element, false for a
    fragment: the last argument of the call of [diagnoseExpression]. *)
Definition isComponentTag (k : Kind Node) : bool :=
  match k with
  | JsxElement o _ => Text.match_UPPERCASE (text (tagName o))
  | _ => false
  end.

(** The first step of [diagnoseExpression]: one level of parentheses is
    taken off. *)
Definition unwrapParenthesis (node : Node) : Node :=
  match node with
  | mkNode _ (ParenthesizedExpression e) _ _ => e
  | _ => node
  end.

(** [diagnoseJsxElement] and [diagnoseExpression]. The list of diagnostics
    is the array that the source pushes to: it is taken and given back.
    [diagnoseJsxElement] is typed for elements and fragments and is only
    called on them; on another node the model leaves the list as it is. *)
Fixpoint diagnoseJsxElement (node : Node) (checker : TypeChecker)
  (diagnostics : list Diagnostic) {struct node} : list Diagnostic :=
  match node with
  | mkNode b k _ _ =>
      let scan (children : list Node) :=
        fold_left
          (fun ds exp =>
             match exp with
             | mkNode _ (JsxExpression (Some e)) _ _ =>
                 diagnoseExpression e checker ds (isComponentTag k)
             | _ => ds
             end)
          children diagnostics in
      match k with
      | JsxElement o children =>
          (* Script tags should be ignored *)
          if String.eqb (text (tagName o)) "script" then diagnostics
          else
            match getSafeAttribute o with
            | Some safeAttribute =>
                safeMode checker (base safeAttribute) (getSourceFile b)
                  children diagnostics
            | None => scan children
            end
      | JsxFragment children => scan children
      | _ => diagnostics
      end
  end

with diagnoseExpression (node : Node) (checker : TypeChecker)
  (diagnostics : list Diagnostic) (isComponent : bool) {struct node}
  : list Diagnostic :=
  (* Unwrap parenthesis *)
  let node := unwrapParenthesis node in
  match node with
  | mkNode b k _ cs =>
      match k with
      (* JSX elements are diagnosed by the walker *)
      | JsxElement _ _ | JsxFragment _ => diagnostics
      | BinaryExpression _ op r =>
          if resultsInBoolean op then diagnostics
          else diagnoseExpression r checker diagnostics isComponent
      | ConditionalExpression _ t f =>
          let diagnostics := diagnoseExpression t checker diagnostics isComponent in
          diagnoseExpression f checker diagnostics isComponent
      | _ =>
          if isSafeAttribute (getTypeAtLocation checker node) node checker
          then diagnostics
          else
            let '(hadJsx, diagnostics) :=
              match k with
              | Identifier => (false, diagnostics)
              | _ =>
                  fold_left
                    (fun (st : bool * list Diagnostic) tag =>
                       if isJsx tag
                       then (true, diagnoseJsxElement tag checker (snd st))
                       else st)
                    cs (false, diagnostics)
              end in
            if hadJsx then diagnostics
            else if isComponent || isJsxFragment node
            then diagnostics ++ [diagnostic b ComponentXss Error]
            else diagnostics ++ [diagnostic b Xss Error]
      end
  end.

(** [recursiveDiagnoseJsxElements]: [loopSourceNodes] is the callback given
    to [ts.forEachChild]; it never returns a value, so the enumeration is
    never cut short. *)
Fixpoint loopSourceNodes (checker : TypeChecker) (node : Node)
  (original : list Diagnostic) {struct node} : list Diagnostic :=
  match node with
  | mkNode _ _ cs _ =>
      (* Recurse through children first *)
      let original :=
        fold_left (fun ds c => loopSourceNodes checker c ds) cs original in
      if isJsx node then diagnoseJsxElement node checker original
      else original
  end.

Definition recursiveDiagnoseJsxElements (node : Node) (checker : TypeChecker)
  (original : list Diagnostic) : list Diagnostic :=
  fold_left (fun ds c => loopSourceNodes checker c ds) (forEachChild node)
    original.

(** ** Descriptions used by the specification *)

(** A type is string-shaped or object-shaped when it has the [String] or
    the [Object] flag. *)
Definition stringOrObjectShaped (t : Type_) : bool :=
  hasFlag t TypeFlags.String || hasFlag t TypeFlags.Object.

(** A string-literal type: its flags are [StringLiteral]. *)
Definition isStringLiteralType (t : Type_) : bool :=
  flags t =? TypeFlags.StringLiteral.

(** No rule of [isSafeAttribute] before the one on unions decides [t]:
    it is not [any], it is not the alias [JSX.Element] on a call and it is
    not the alias [Html.Children]. *)
Definition reachesUnionRule (t : Type_) (expression : Node) : bool :=
  negb (hasFlag t TypeFlags.Any)
  && negb (aliasIs t "Element" "JSX" && isCallExpression expression)
  && negb (aliasIs t "Children" "Html").

(** No rule before the one on flags decides [t]: as above, and [t] is
    neither a union nor an array nor a [Promise]. *)
Definition reachesFlagRule (t : Type_) (expression : Node)
  (checker : TypeChecker) : bool :=
  reachesUnionRule t expression
  && negb (isUnion t)
  && negb (isArrayType checker t || named (symbol t) "Promise").


(** The tag name starts with an upper-case letter. *)
Definition startsWithUppercase (tag : string) : bool :=
  match tag with
  | String c _ => Text.isUpper c
  | EmptyString => false
  end.

(** [p], given in lower case, is matched at the end of [s], letter case
    ignored. *)
Fixpoint suffix_ci (p s : string) : bool :=
  ((String.length s =? String.length p)%nat && Text.prefix_ci p s)
  || match s with
     | String _ s' => suffix_ci p s'
     | EmptyString => false
     end.

(** The pattern in the words of the specification: an identifier that
    ends in [escapeHtml], called as a function, optionally qualified by a
    dotted name, letter case ignored. *)
Definition identifierEndingInEscapeHtmlCalled (txt : string) : bool :=
  let (w, r) := Text.spanWord txt in
  match r with
  | String "(" _ => suffix_ci "escapehtml" w
  | String "." r' =>
      let (w', r'') := Text.spanWord r' in
      match w, r'' with
      | String _ _, String "(" _ => suffix_ci "escapehtml" w'
      | _, _ => false
      end
  | _ => false
  end.

(** The operators whose result is a boolean: strict and loose equality
    and inequality, greater and less than and their or-equal forms, the
    membership test and the type test. *)
Definition booleanOperators : list SyntaxKind :=
  [EqualsEqualsEqualsToken; EqualsEqualsToken;
   ExclamationEqualsEqualsToken; ExclamationEqualsToken;
   GreaterThanToken; GreaterThanEqualsToken;
   LessThanEqualsToken; LessThanToken;
   InKeyword; InstanceOfKeyword].

(** The expression is not taken apart by [diagnoseExpression]: after the
    parentheses are taken off it is neither an element, a fragment, a
    binary nor a conditional expression, so that its type is asked for. *)
Definition isCandidate (node : Node) : bool :=
  match kind node with
  | JsxElement _ _ | JsxFragment _
  | BinaryExpression _ _ _ | ConditionalExpression _ _ _ => false
  | _ => true
  end.

(** The diagnostic is the [DoubleEscape] error anchored at [marker]. *)
Definition isDoubleEscapeAt (marker : NodeBase) (d : Diagnostic) : bool :=
  match error d, category d, start d, length d, file d with
  | DoubleEscape, Error, Some s, Some w, Some f =>
      (s =? getStart marker) && (w =? getWidth marker)
      && String.eqb f (getSourceFile marker)
  | _, _, _, _, _ => false
  end.

(** The children of an element with the [safe] attribute for which the
    first test of the loop holds. *)
Definition doubleEscapes (exp : Node) : bool :=
  isJsxElement exp || usesEscapeHtml exp.

(** The diagnostic is the [UnusedSafe] warning anchored at [marker]. *)
Definition isUnusedSafeAt (marker : NodeBase) (d : Diagnostic) : bool :=
  match error d, category d, start d, length d, file d with
  | UnusedSafe, Warning, Some s, Some w, Some f =>
      (s =? getStart marker) && (w =? getWidth marker)
      && String.eqb f (getSourceFile marker)
  | _, _, _, _, _ => false
  end.

(** ** The order of the walk *)

(** The nodes on which the body of [loopSourceNodes] runs when it is
    called on [node], in the order in which it runs on them. *)
Fixpoint visitedFrom (node : Node) : list Node :=
  match node with
  | mkNode _ _ cs _ => flat_map visitedFrom cs ++ [node]
  end.

(** The same for [recursiveDiagnoseJsxElements]. *)
Definition visited (root : Node) : list Node :=
  flat_map visitedFrom (forEachChild root).

(** The nodes below [node] in the tree of [ts.forEachChild], each
    occurrence once, a node before what is below it. *)
Fixpoint descendants (node : Node) : list Node :=
  match node with
  | mkNode _ _ cs _ => flat_map (fun c => c :: descendants c) cs
  end.

(** Wherever a node stands in the order of the walk, what stands right
    before it is the walk of what is below it. *)
Definition descendantsFirst (l : list Node) : Prop :=
  forall before node after,
    l = (before ++ node :: after)%list ->
    exists earlier, before = (earlier ++ visited node)%list.

(** The number of nodes of the tree of [ts.forEachChild]. *)
Fixpoint size (node : Node) : nat :=
  match node with
  | mkNode _ _ cs _ => S (list_sum (map size cs))
  end.

(** What [loopSourceNodes] does on a node once its children are done. *)
Definition classifyIfJsx (checker : TypeChecker) (ds : list Diagnostic)
  (node : Node) : list Diagnostic :=
  if isJsx node then diagnoseJsxElement node checker ds else ds.

(** One turn of the loop of [diagnoseExpression] over
    [node.getChildren()]: the state is [hadJsx] and the diagnostics. *)
Definition scanChildren (checker : TypeChecker) (st : bool * list Diagnostic)
  (tag : Node) : bool * list Diagnostic :=
  if isJsx tag then (true, diagnoseJsxElement tag checker (snd st)) else st.

(** The generic scan of [diagnoseJsxElement] with the flag [isComponent]
    made explicit. *)
Definition lookForExpressions (checker : TypeChecker) (isComponent : bool)
  (children : list Node) (diagnostics : list Diagnostic) : list Diagnostic :=
  fold_left
    (fun ds exp =>
       match kind exp with
       | JsxExpression (Some e) => diagnoseExpression e checker ds isComponent
       | _ => ds
       end)
    children diagnostics.

(** ** Sample documents *)

Module Sample.

Definition page : SourceFile := "page.tsx".

(** A node base whose text starts at [start], after [trivia] characters
    of white space. *)
Definition spanned (txt : string) (trivia start : Z) : NodeBase :=
  mkBase txt (start - trivia) start (Z.of_nat (String.length txt)) page.

Definition leaf (k : Kind Node) (txt : string) (start : Z) : Node :=
  mkNode (spanned txt 0 start) k [] [].

Definition token := leaf OtherKind.
Definition identifier := leaf Identifier.

(** [{e}], the text [txt] starting at [start]. *)
Definition container (txt : string) (start : Z) (e : Node) : Node :=
  mkNode (spanned txt 0 start) (JsxExpression (Some e)) [e]
    [token "{" start; e;
     token "}" (start + Z.of_nat (String.length txt) - 1)].

(** The element [txt] at [start]: [opening] is the text of its opening
    tag, [tag] its tag name, [attrs] its attributes. *)
Definition element (txt : string) (start : Z) (opening tag : string)
  (attrs children : list Node) : Node :=
  let tagNode := identifier tag (start + 1) in
  let closing := "</" ++ tag ++ ">" in
  let attrsNode :=
    mkNode (spanned "" 0 (start + 1 + Z.of_nat (String.length tag)))
      OtherKind attrs [] in
  mkNode (spanned txt 0 start)
    (JsxElement (mkOpening tagNode attrs) children)
    (mkNode (spanned opening 0 start) OtherKind [tagNode; attrsNode] []
     :: children
     ++ [mkNode
           (spanned closing 0
              (start + Z.of_nat (String.length txt)
               - Z.of_nat (String.length closing)))
           OtherKind
           [identifier tag
              (start + Z.of_nat (String.length txt)
               - Z.of_nat (String.length closing) + 2)] []])
    [].

(** The fragment [txt] at [start]. *)
Definition fragment (txt : string) (start : Z) (children : list Node) : Node :=
  mkNode (spanned txt 0 start) (JsxFragment children)
    (token "<>" start :: children
     ++ [token "</>" (start + Z.of_nat (String.length txt) - 3)])
    [].

(** A source file that holds the one expression [e]. *)
Definition sourceFile (e : Node) : Node :=
  mkNode (spanned (text e) 0 0) OtherKind
    [mkNode (base e) OtherKind [e] []] [].

(** Types. *)
Definition plain (flags : Z) : Type_ := mkType flags None None false [] None.
Definition anyType := plain TypeFlags.Any.
Definition stringType := plain TypeFlags.String.
Definition numberType := plain TypeFlags.Number.
(** The type of [const label = "<b>bold</b>"]. *)
Definition literalType := plain TypeFlags.StringLiteral.
(** [number | "auto"] *)
Definition widthType : Type_ :=
  mkType TypeFlags.Union None None true [numberType; literalType] None.
(** [namespace Html { type Children = number | string }] *)
Definition childrenType : Type_ :=
  mkType TypeFlags.Union
    (Some (mkSymbol "Children" (Some (mkSymbol "Html" None)))) None
    true [numberType; stringType] None.
(** [namespace JSX { type Element = string | Promise<string> }] *)
Definition elementType : Type_ :=
  mkType TypeFlags.Union
    (Some (mkSymbol "Element" (Some (mkSymbol "JSX" None)))) None
    true
    [stringType;
     mkType TypeFlags.Object None (Some (mkSymbol "Promise" None)) false []
       (Some [stringType])]
    None.

(** The type checker of the samples: the type of an expression is
    looked up by its text; what is not listed has the error type, which
    is [any]. *)
Definition typeOf (txt : string) : Type_ :=
  if String.eqb txt "userInput" then stringType
  else if String.eqb txt "escapeHtml(x)" then stringType
  else if String.eqb txt "myEscapeHtml(x)" then stringType
  else if String.eqb txt "label" then literalType
  else if String.eqb txt "children" then childrenType
  else if String.eqb txt "count" then numberType
  else if String.eqb txt "total" then numberType
  else if String.eqb txt "width" then widthType
  else if String.eqb txt "(<b>{userInput}</b>)" then elementType
  else anyType.

Definition checker : TypeChecker :=
  mkChecker (fun n => Some (typeOf (text n))) (fun _ => false).

(** Expressions. *)
Definition userInput (start : Z) := identifier "userInput" start.
Definition label := identifier "label" 6.
Definition safeHtml := identifier "safeHtml" 6.

(** [<div>{userInput}</div>] *)
Definition divUserInput (start : Z) : Node :=
  element "<div>{userInput}</div>" start "<div>" "div" []
    [container "{userInput}" (start + 5) (userInput (start + 6))].

(** [<>{userInput}</>] *)
Definition fragmentUserInput : Node :=
  fragment "<>{userInput}</>" 0 [container "{userInput}" 2 (userInput 3)].

(** [<foreignObject>{userInput}</foreignObject>] *)
Definition foreignObject : Node :=
  element "<foreignObject>{userInput}</foreignObject>" 0
    "<foreignObject>" "foreignObject" []
    [container "{userInput}" 15 (userInput 16)].

(** [<UserCard>{userInput}</UserCard>] *)
Definition userCard : Node :=
  element "<UserCard>{userInput}</UserCard>" 0 "<UserCard>" "UserCard" []
    [container "{userInput}" 10 (userInput 11)].

(** The attribute [safe] with [trivia] characters of white space before
    it, in an element whose tag name is [div] and starts at 0. *)
Definition safeMarker (trivia : Z) : Node :=
  mkNode (spanned "safe" trivia (4 + trivia)) OtherKind
    [identifier "safe" (4 + trivia)] [].

(** [<div safe>{escapeHtml(x)}</div>] *)
Definition escapeHtmlCall : Node :=
  mkNode (spanned "escapeHtml(x)" 0 11) CallExpression
    [identifier "escapeHtml" 11; identifier "x" 22] [].
Definition divSafeEscapeHtml : Node :=
  element "<div safe>{escapeHtml(x)}</div>" 0 "<div safe>" "div"
    [safeMarker 1] [container "{escapeHtml(x)}" 10 escapeHtmlCall].

(** [<div safe>{myEscapeHtml(x)}</div>] *)
Definition myEscapeHtmlCall : Node :=
  mkNode (spanned "myEscapeHtml(x)" 0 11) CallExpression
    [identifier "myEscapeHtml" 11; identifier "x" 24] [].
Definition divSafeMyEscapeHtml : Node :=
  element "<div safe>{myEscapeHtml(x)}</div>" 0 "<div safe>" "div"
    [safeMarker 1] [container "{myEscapeHtml(x)}" 10 myEscapeHtmlCall].

(** [<div  safe>{count}{total}</div>], two spaces before [safe]. *)
Definition divSafeTwoSpaces : Node :=
  element "<div  safe>{count}{total}</div>" 0 "<div  safe>" "div"
    [safeMarker 2]
    [container "{count}" 11 (identifier "count" 12);
     container "{total}" 18 (identifier "total" 19)].

(** [<div safe>{count}{total}</div>], one space before [safe]. *)
Definition divSafeOneSpace : Node :=
  element "<div safe>{count}{total}</div>" 0 "<div safe>" "div"
    [safeMarker 1]
    [container "{count}" 10 (identifier "count" 11);
     container "{total}" 17 (identifier "total" 18)].

(** [a === userInput] and [a && userInput] *)
Definition binary (op : SyntaxKind) (opText : string) : Node :=
  let l := identifier "a" 6 in
  let r := userInput (8 + Z.of_nat (String.length opText)) in
  mkNode (spanned ("a " ++ opText ++ " userInput") 0 6)
    (BinaryExpression l op r) [l; token opText 8; r] [].


(** [<script><div>{userInput}</div></script>] *)
Definition scriptWithDiv : Node :=
  element "<script><div>{userInput}</div></script>" 0 "<script>" "script" []
    [divUserInput 8].

(** [<script>{userInput}</script>] *)
Definition scriptUserInput : Node :=
  element "<script>{userInput}</script>" 0 "<script>" "script" []
    [container "{userInput}" 8 (userInput 9)].

End Sample.


(** ** Further descriptions *)

(** What [diagnoseExpression] does with the node that is left once the
    parentheses are taken off. *)
Definition diagnoseReduced (n : Node) (checker : TypeChecker)
  (diagnostics : list Diagnostic) (isComponent : bool) : list Diagnostic :=
  match kind n with
  | JsxElement _ _ | JsxFragment _ => diagnostics
  | BinaryExpression _ op r =>
      if resultsInBoolean op then diagnostics
      else diagnoseExpression r checker diagnostics isComponent
  | ConditionalExpression _ t f =>
      diagnoseExpression f checker
        (diagnoseExpression t checker diagnostics isComponent) isComponent
  | _ =>
      if isSafeAttribute (getTypeAtLocation checker n) n checker
      then diagnostics
      else
        let st :=
          if isIdentifier n then (false, diagnostics)
          else fold_left (scanChildren checker) (getChildren n)
                 (false, diagnostics) in
        if fst st then snd st
        else if isComponent || isJsxFragment n
             then snd st ++ [diagnostic (base n) ComponentXss Error]
             else snd st ++ [diagnostic (base n) Xss Error]
  end.

(** The nodes that [diagnoseJsxElement] and [diagnoseExpression] go into
    from a node: the children of an element or fragment, the expression of
    a container or of a parenthesis, the right operand, the two branches of
    a conditional, and the nodes of [getChildren()]. [reach] counts them. *)
Fixpoint reach (n : Node) : nat :=
  match n with
  | mkNode _ k _ gc =>
      S (match k with
         | JsxElement _ cs | JsxFragment cs => list_sum (map reach cs)
         | JsxExpression (Some e) | ParenthesizedExpression e => reach e
         | BinaryExpression _ _ r => reach r
         | ConditionalExpression _ t f => reach t + reach f
         | _ => 0
         end
         + list_sum (map reach gc))
  end.

(** The four diagnostics that [util.ts] builds, each with its category. *)
Definition built (d : Diagnostic) : Prop :=
  exists node,
    d = diagnostic node UnusedSafe Warning
    \/ d = diagnostic node DoubleEscape Error
    \/ d = diagnostic node Xss Error
    \/ d = diagnostic node ComponentXss Error.

(** [out] is [ds] with diagnostics pushed after it, each of them built
    by [diagnostic]. *)
Definition pushedOnto (ds out : list Diagnostic) : Prop :=
  exists added, out = (ds ++ added)%list /\ Forall built added.

(** Where a diagnostic is shown and how: everything but the key of the
    catalogue. *)
Definition anchor (d : Diagnostic)
  : DiagnosticCategory * option SourceFile * option Z * option Z :=
  (category d, file d, start d, length d).

(** The key with [Xss] and [ComponentXss] taken for one. *)
Definition xssKind (k : ErrorKey) : ErrorKey :=
  match k with
  | ComponentXss => Xss
  | _ => k
  end.

(** The diagnostic with the two [Xss] keys taken for one. *)
Definition upToComponent (d : Diagnostic) : Diagnostic :=
  {| category := category d;
     error := xssKind (error d);
     file := file d;
     length := length d;
     start := start d |}.

(** No type of the tree has the [any] flag. *)
Fixpoint anyFree (t : Type_) : bool :=
  negb (hasFlag t TypeFlags.Any)
  && match t with
     | mkType _ _ _ _ ts args =>
         forallb anyFree ts
         && match args with
            | Some l => forallb anyFree l
            | None => true
            end
     end.

(** No type of the tree has the [any] flag, and every type of it that is
    not a union, an array or a [Promise] has neither the [String] nor the
    [Object] flag. *)
Fixpoint cannotCarryText (checker : TypeChecker) (t : Type_) : bool :=
  negb (hasFlag t TypeFlags.Any)
  && (isUnion t || isArrayType checker t || named (symbol t) "Promise"
      || negb (stringOrObjectShaped t))
  && match t with
     | mkType _ _ _ _ ts args =>
         forallb (cannotCarryText checker) ts
         && match args with
            | Some l => forallb (cannotCarryText checker) l
            | None => true
            end
     end.

(** [resolvedTypeArguments?.[0]] *)
Definition firstTypeArgument (t : Type_) : option Type_ :=
  match resolvedTypeArguments t with
  | Some (a :: _) => Some a
  | _ => None
  end.

(** A child of an element in which the generic scan finds an expression:
    a [JsxExpression] that has one. *)
Definition hasExpression (exp : Node) : bool :=
  match kind exp with
  | JsxExpression (Some _) => true
  | _ => false
  end.

(** The diagnostic is one of the two that are anchored at the [safe]
    attribute. *)
Definition atMarker (marker : NodeBase) (d : Diagnostic) : Prop :=
  d = diagnostic marker UnusedSafe Warning
  \/ d = diagnostic marker DoubleEscape Error.

Module More.

(** Further types and documents. *)
Definition booleanType := Sample.plain (Z.shiftl 1 4).

(** [Promise<(number | boolean)[]>] *)
Definition promisedList : Type_ :=
  mkType TypeFlags.Object None (Some (mkSymbol "Promise" None)) false []
    (Some [mkType TypeFlags.Object None (Some (mkSymbol "Array" None)) false []
             (Some [mkType TypeFlags.Union None None true
                      [Sample.numberType; booleanType] None])]).

(** A type checker that knows the arrays by their symbol. *)
Definition checker : TypeChecker :=
  mkChecker (getTypeAtLocation Sample.checker)
    (fun t => named (symbol t) "Array").

(** [Promise<string>] *)
Definition promisedString : Type_ :=
  mkType TypeFlags.Object None (Some (mkSymbol "Promise" None)) false []
    (Some [Sample.stringType]).

(** [(userInput)] *)
Definition parenthesized : Node :=
  mkNode (Sample.spanned "(userInput)" 0 6)
    (ParenthesizedExpression (Sample.userInput 7))
    [Sample.userInput 7]
    [Sample.token "(" 6; Sample.userInput 7; Sample.token ")" 16].


(** [<div class="a">hello{}</div>] *)
Definition divPlain : Node :=
  Sample.element "<div class='a'>hello{}</div>" 0 "<div class='a'>" "div"
    [Sample.leaf OtherKind "class='a'" 5]
    [Sample.leaf JsxText "hello" 15;
     mkNode (Sample.spanned "{}" 0 20) (JsxExpression None) []
       [Sample.token "{" 20; Sample.token "}" 21]].

(** A source file without markup: [count + total]. *)
Definition plainFile : Node :=
  Sample.sourceFile
    (mkNode (Sample.spanned "count + total" 0 0)
       (BinaryExpression (Sample.identifier "count" 0) PlusToken
          (Sample.identifier "total" 8))
       [Sample.identifier "count" 0; Sample.token "+" 6;
        Sample.identifier "total" 8] []).

End More.


Module Twice.

(** [number | string] *)
Definition numberOrString : Type_ :=
  mkType TypeFlags.Union None None true
    [Sample.numberType; Sample.stringType] None.

(** [safeCount || userInput], with [safeCount] a number and [userInput]
    a string: the type of the expression is [number | string]. *)
Definition safeCountOrUserInput : Node :=
  let l := Sample.identifier "safeCount" 6 in
  let r := Sample.userInput 19 in
  mkNode (Sample.spanned "safeCount || userInput" 0 6)
    (BinaryExpression l BarBarToken r) [l; Sample.token "||" 16; r] [].

Definition checker : TypeChecker :=
  mkChecker
    (fun n =>
       if String.eqb (text n) "safeCount || userInput"
       then Some numberOrString
       else if String.eqb (text n) "safeCount" then Some Sample.numberType
       else getTypeAtLocation Sample.checker n)
    (fun _ => false).


End Twice.

(** Two lists of diagnostics that differ at most in [Xss] standing for
    [ComponentXss] or the other way round. *)
Definition sameUpToComponent (ds ds' : list Diagnostic) : Prop :=
  map upToComponent ds = map upToComponent ds'.
(** ** The two regular expressions *)

Lemma append_assoc (a b c : string) : (a ++ b) ++ c = a ++ (b ++ c).
Proof.
  induction a as [|x a IH]; simpl; [reflexivity|]. rewrite IH. reflexivity.
Qed.

Lemma prefix_ci_spec (p s : string) :
  Text.prefix_ci p s = true <->
  exists a b, s = a ++ b /\ Text.lowerCase a = p.
Proof.
  revert s. induction p as [|x p IH]; intros s; simpl.
  - split; [|reflexivity]. intros _. exists "", s. split; reflexivity.
  - destruct s as [|y s].
    + split; [discriminate|]. intros (a & b & E & Ha).
      destruct a; [discriminate Ha|discriminate E].
    + rewrite andb_true_iff, Ascii.eqb_eq, IH. split.
      * intros [-> (a & b & -> & <-)].
        exists (String y a), b. split; reflexivity.
      * intros (a & b & E & Ha). destruct a as [|z a]; [discriminate Ha|].
        simpl in E, Ha. injection E as -> ->. injection Ha as <- <-.
        split; [reflexivity|]. exists a, b. split; reflexivity.
Qed.

Lemma spanWord_sound (s : string) :
  s = fst (Text.spanWord s) ++ snd (Text.spanWord s)
  /\ Text.allWord (fst (Text.spanWord s)) = true.
Proof.
  induction s as [|c s [IH1 IH2]]; simpl.
  - split; reflexivity.
  - destruct (Text.isWord c) eqn:Ec.
    + destruct (Text.spanWord s) as [w r]. simpl in *.
      rewrite Ec, IH2, <- IH1. split; reflexivity.
    + split; reflexivity.
Qed.

Lemma spanWord_complete (w : string) (c : ascii) (r : string) :
  Text.allWord w = true -> Text.isWord c = false ->
  Text.spanWord (w ++ String c r) = (w, String c r).
Proof.
  intros Hw Hc. induction w as [|x w IH]; simpl in *.
  - rewrite Hc. reflexivity.
  - apply andb_true_iff in Hw as [Hx Hw]. rewrite Hx, (IH Hw). reflexivity.
Qed.

(** What [ESCAPE_HTML_REGEX] matches: a text that begins with
    [escapeHtml] in any letter case, after at most one qualifier made of
    word characters and a dot. Nothing is asked of what follows. *)
Lemma match_ESCAPE_HTML_REGEX_spec (s : string) :
  Text.match_ESCAPE_HTML_REGEX s = true <->
  exists qualifier name rest,
    s = qualifier ++ name ++ rest
    /\ Text.lowerCase name = "escapehtml"
    /\ (qualifier = ""
        \/ exists w, w <> "" /\ Text.allWord w = true /\ qualifier = w ++ ".").
Proof.
  unfold Text.match_ESCAPE_HTML_REGEX. rewrite orb_true_iff. split.
  - intros [H|H].
    + destruct (spanWord_sound s) as [Es Hw].
      destruct (Text.spanWord s) as [w r]. simpl in Es, Hw.
      destruct w as [|x w]; [discriminate H|].
      destruct r as [|y r]; [discriminate H|].
      destruct (Ascii.eqb_spec y "."%char) as [->|Hy].
      * apply prefix_ci_spec in H as (name & rest & -> & Hn).
        exists (String x w ++ "."), name, rest. rewrite append_assoc.
        split; [exact Es|]. split; [exact Hn|]. right.
        exists (String x w). repeat split; [discriminate|exact Hw].
      * exfalso. revert H.
        destruct y as [[|] [|] [|] [|] [|] [|] [|] [|]];
          try discriminate; intros _; apply Hy; reflexivity.
    + apply prefix_ci_spec in H as (name & rest & -> & Hn).
      exists "", name, rest. split; [reflexivity|]. split; [exact Hn|].
      left. reflexivity.
  - intros (q & name & rest & -> & Hn & [->|(w & Hw0 & Hw & ->)]).
    + right. apply prefix_ci_spec. exists name, rest. split; [reflexivity|exact Hn].
    + left. rewrite append_assoc.
      change ("." ++ (name ++ rest)) with (String "."%char (name ++ rest)).
      rewrite (@spanWord_complete w "."%char _ Hw eq_refl).
      destruct w as [|x w]; [contradiction Hw0; reflexivity|].
      cbv beta iota. apply prefix_ci_spec. exists name, rest. split; [reflexivity|exact Hn].
Qed.

(** What [UPPERCASE] matches: a text with an upper-case letter at some
    place. *)
Lemma match_UPPERCASE_spec (s : string) :
  Text.match_UPPERCASE s = true <->
  exists before c after,
    s = before ++ String c after /\ Text.isUpper c = true.
Proof.
  induction s as [|x s IH]; simpl.
  - split; [discriminate|]. intros (before & c & after & E & _).
    destruct before; discriminate E.
  - rewrite orb_true_iff, IH. split.
    + intros [Hx|(before & c & after & -> & Hc)].
      * exists "", x, s. split; [reflexivity|exact Hx].
      * exists (String x before), c, after. split; [reflexivity|exact Hc].
    + intros (before & c & after & E & Hc). destruct before as [|y before].
      * injection E as -> ->. left. exact Hc.
      * injection E as -> ->. right. exists before, c, after.
        split; [reflexivity|exact Hc].
Qed.

Lemma startsWithUppercase_match (tag : string) :
  startsWithUppercase tag = true -> Text.match_UPPERCASE tag = true.
Proof.
  destruct tag as [|c tag]; simpl; [discriminate|]. intros ->. reflexivity.
Qed.

(** ** The oracle, rule by rule *)

Lemma isSafeType_eq (type : Type_) (expression : Node) (checker : TypeChecker) :
  isSafeType type expression checker =
  if hasFlag type TypeFlags.Any then false
  else if aliasIs type "Element" "JSX" && isCallExpression expression then true
  else if aliasIs type "Children" "Html" then true
  else if isUnion type then
    forallb (fun t => isSafeType t expression checker) (types type)
  else if isArrayType checker type || named (symbol type) "Promise" then
    match resolvedTypeArguments type with
    | Some (t :: _) => isSafeType t expression checker
    | _ => true
    end
  else if negb (hasFlag type TypeFlags.String)
          && negb (hasFlag type TypeFlags.Object) then true
  else textIsSafe (text expression).
Proof. destruct type; reflexivity. Qed.

Lemma hasFlag_true (t : Type_) (flag : Z) :
  hasFlag t flag = true <-> Z.land (flags t) flag <> 0.
Proof.
  unfold hasFlag. rewrite negb_true_iff, Z.eqb_neq. tauto.
Qed.

Lemma reachesUnionRule_true (t : Type_) (e : Node) :
  reachesUnionRule t e = true ->
  hasFlag t TypeFlags.Any = false
  /\ aliasIs t "Element" "JSX" && isCallExpression e = false
  /\ aliasIs t "Children" "Html" = false.
Proof.
  unfold reachesUnionRule.
  rewrite !andb_true_iff, !negb_true_iff. tauto.
Qed.


Lemma isSafeType_flags (t : Type_) (e : Node) (c : TypeChecker) :
  reachesFlagRule t e c = true ->
  isSafeType t e c =
  if stringOrObjectShaped t then textIsSafe (text e) else true.
Proof.
  unfold reachesFlagRule. rewrite !andb_true_iff, !negb_true_iff.
  intros [[Hr Hu] Hp]. apply reachesUnionRule_true in Hr as (Ha & Hj & Hc).
  rewrite isSafeType_eq, Ha, Hj, Hc, Hu, Hp. unfold stringOrObjectShaped.
  destruct (hasFlag t TypeFlags.String), (hasFlag t TypeFlags.Object);
    reflexivity.
Qed.

Lemma stringLiteral_not_shaped (t : Type_) :
  isStringLiteralType t = true -> stringOrObjectShaped t = false.
Proof.
  unfold isStringLiteralType, stringOrObjectShaped, hasFlag.
  intros H. apply Z.eqb_eq in H. rewrite H. reflexivity.
Qed.

(** ** Lists and folds *)

Lemma fold_left_ext {A B : Type} (f g : A -> B -> A) (l : list B) (a : A) :
  (forall x y, f x y = g x y) -> fold_left f l a = fold_left g l a.
Proof.
  intros H. revert a. induction l as [|y l IH]; intros a; simpl.
  - reflexivity.
  - rewrite H. apply IH.
Qed.

Lemma fold_left_flat_map {A B C : Type} (f : A -> C -> A) (g : B -> list C)
  (l : list B) (a : A) :
  fold_left f (flat_map g l) a
  = fold_left (fun x y => fold_left f (g y) x) l a.
Proof.
  revert a. induction l as [|y l IH]; intros a; simpl.
  - reflexivity.
  - rewrite fold_left_app. apply IH.
Qed.

Lemma fold_left_id {A B : Type} (f : A -> B -> A) (l : list B) (a : A) :
  (forall x y, In y l -> f x y = x) -> fold_left f l a = a.
Proof.
  induction l as [|y l IH]; intros H; simpl.
  - reflexivity.
  - rewrite H by (left; reflexivity). apply IH.
    intros x z Hz. apply H. right. exact Hz.
Qed.

(** ** Induction on the tree of [ts.forEachChild] *)

Section NodeInduction.

Variable P : Node -> Prop.
Hypothesis step :
  forall b k cs g, Forall P cs -> P (mkNode b k cs g).

Fixpoint Node_forEachChild_ind (n : Node) : P n :=
  match n with
  | mkNode b k cs g =>
      step b k g
        ((fix all (l : list Node) : Forall P l :=
            match l with
            | [] => Forall_nil P
            | c :: l' => Forall_cons c (Node_forEachChild_ind c) (all l')
            end) cs)
  end.

End NodeInduction.

(** ** The analyzer, case by case *)

Lemma diagnoseExpression_eq (node : Node) (checker : TypeChecker)
  (diagnostics : list Diagnostic) (isComponent : bool) :
  diagnoseExpression node checker diagnostics isComponent =
  let n := unwrapParenthesis node in
  match kind n with
  | JsxElement _ _ | JsxFragment _ => diagnostics
  | BinaryExpression _ op r =>
      if resultsInBoolean op then diagnostics
      else diagnoseExpression r checker diagnostics isComponent
  | ConditionalExpression _ t f =>
      diagnoseExpression f checker
        (diagnoseExpression t checker diagnostics isComponent) isComponent
  | _ =>
      if isSafeAttribute (getTypeAtLocation checker n) n checker
      then diagnostics
      else
        let st :=
          if isIdentifier n then (false, diagnostics)
          else fold_left (scanChildren checker) (getChildren n)
                 (false, diagnostics) in
        if fst st then snd st
        else if isComponent || isJsxFragment n
             then (snd st ++ [diagnostic (base n) ComponentXss Error])%list
             else (snd st ++ [diagnostic (base n) Xss Error])%list
  end.
Proof.
  assert (candidate :
    forall (b : NodeBase) (k : Kind Node) (fe gc : list Node),
      isCandidate (mkNode b k fe gc) = true ->
      diagnoseExpression (mkNode b (ParenthesizedExpression (mkNode b k fe gc)) [] [])
        checker diagnostics isComponent
      = (if isSafeAttribute (getTypeAtLocation checker (mkNode b k fe gc))
              (mkNode b k fe gc) checker
         then diagnostics
         else
           let st :=
             if isIdentifier (mkNode b k fe gc) then (false, diagnostics)
             else fold_left (scanChildren checker) gc (false, diagnostics) in
           if fst st then snd st
           else if isComponent || isJsxFragment (mkNode b k fe gc)
                then (snd st ++ [diagnostic b ComponentXss Error])%list
                else (snd st ++ [diagnostic b Xss Error])%list)).
  { intros b k fe gc Hk.
    destruct k; try discriminate Hk; cbn; unfold scanChildren;
      (destruct (isSafeAttribute _ _ _); [reflexivity|]);
      try (destruct (fold_left _ _ _) as [[|] ?]); reflexivity. }
  destruct node as [b k fe gc].
  destruct k as [o cs|cs|e| |e|l op r|c t f| | | ];
    try reflexivity; try (apply (candidate b _ fe gc); reflexivity).
  destruct e as [b' k' fe' gc'].
  destruct k' as [o cs|cs|e| |e|l op r|c t f| | | ];
    try reflexivity; apply (candidate b' _ fe' gc'); reflexivity.
Qed.

Lemma scanChildren_fold (checker : TypeChecker) (tags : list Node)
  (hadJsx : bool) (diagnostics : list Diagnostic) :
  fold_left (scanChildren checker) tags (hadJsx, diagnostics)
  = (hadJsx || existsb isJsx tags,
     fold_left (fun ds tag => diagnoseJsxElement tag checker ds)
       (filter isJsx tags) diagnostics).
Proof.
  revert hadJsx diagnostics.
  induction tags as [|tag tags IH]; intros hadJsx diagnostics; simpl.
  - rewrite orb_false_r. reflexivity.
  - unfold scanChildren at 2. destruct (isJsx tag); simpl.
    + rewrite IH, orb_true_r. reflexivity.
    + apply IH.
Qed.


(** ** The type-safety oracle *)

(** C3. The rules of [isSafeAttribute] are tried in order and the first
    that applies decides: a type that is not resolved is safe, and a type
    with the [any] flag is unsafe whatever the expression is, so also when
    its text starts with [safe] or matches [ESCAPE_HTML_REGEX]. *)
Theorem isSafeAttribute_unresolved_then_any (type : Type_) (expression : Node)
  (checker : TypeChecker) :
  Z.land (flags type) TypeFlags.Any <> 0 ->
  isSafeAttribute None expression checker = true
  /\ isSafeAttribute (Some type) expression checker = false.
Proof.
  intros Hany. split; [reflexivity|].
  apply hasFlag_true in Hany.
  simpl. rewrite isSafeType_eq, Hany. reflexivity.
Qed.

Lemma isSafeAttribute_unresolved_then_any_witness :
  textIsSafe (text Sample.safeHtml) = true
  /\ isSafeAttribute None Sample.safeHtml Sample.checker = true
  /\ isSafeAttribute (Some Sample.anyType) Sample.safeHtml Sample.checker
     = false.
Proof.
  split; [reflexivity|].
  apply (@isSafeAttribute_unresolved_then_any
           Sample.anyType Sample.safeHtml Sample.checker).
  vm_compute. discriminate.
Defined.

(** C1, counterexample. [label] has the string-literal type of
    [const label = "<b>bold</b>"]: no earlier rule decides it, its text
    neither starts with [safe] nor matches [ESCAPE_HTML_REGEX], and
    [isSafeAttribute] answers that it is safe. *)
Lemma stringLiteral_label_is_safe :
  isStringLiteralType Sample.literalType = true
  /\ reachesFlagRule Sample.literalType Sample.label Sample.checker = true
  /\ Text.startsWith (text Sample.label) "safe" = false
  /\ Text.match_ESCAPE_HTML_REGEX (text Sample.label) = false
  /\ isSafeAttribute (Some Sample.literalType) Sample.label Sample.checker
     = true.
Proof. repeat split; reflexivity. Qed.

(** C1, as amended. For a type that no earlier rule decides (resolved, not
    [any], not one of the two aliases, not a union, not an array or a
    [Promise]): when it has the [String] or the [Object] flag,
    [isSafeAttribute] answers true iff the text of the expression starts
    with [safe] or matches [ESCAPE_HTML_REGEX]; when it has neither flag
    it answers true, and a string-literal type has neither flag. *)
Theorem isSafeAttribute_flag_rule (type : Type_) (expression : Node)
  (checker : TypeChecker) :
  reachesFlagRule type expression checker = true ->
  (stringOrObjectShaped type = true ->
   isSafeAttribute (Some type) expression checker
   = Text.startsWith (text expression) "safe"
     || Text.match_ESCAPE_HTML_REGEX (text expression))
  /\ (stringOrObjectShaped type = false ->
      isSafeAttribute (Some type) expression checker = true)
  /\ (isStringLiteralType type = true ->
      isSafeAttribute (Some type) expression checker = true).
Proof.
  intros Hr. simpl. rewrite (isSafeType_flags _ _ _ Hr).
  repeat split.
  - intros ->. reflexivity.
  - intros ->. reflexivity.
  - intros Hl. rewrite (stringLiteral_not_shaped _ Hl). reflexivity.
Qed.

Lemma isSafeAttribute_flag_rule_witness :
  reachesFlagRule Sample.stringType (Sample.userInput 6) Sample.checker = true
  /\ stringOrObjectShaped Sample.stringType = true
  /\ isSafeAttribute (Some Sample.stringType) (Sample.userInput 6)
       Sample.checker
     = Text.startsWith "userInput" "safe"
       || Text.match_ESCAPE_HTML_REGEX "userInput".
Proof.
  split; [reflexivity|]. split; [reflexivity|].
  apply (@isSafeAttribute_flag_rule
           Sample.stringType (Sample.userInput 6) Sample.checker);
    reflexivity.
Defined.


(** C2, second counterexample. The type of [safeCount || userInput] is
    the union [number | string], which no earlier rule decides, and every
    member of it is safe for this expression, whose text starts with
    [safe]; [diagnoseExpression] does not ask for the type of a binary
    expression, it goes on with the right operand and adds an [Xss] for
    [userInput]. *)
Lemma safe_union_binary_is_diagnosed :
  isUnion Twice.numberOrString = true
  /\ reachesUnionRule Twice.numberOrString Twice.safeCountOrUserInput = true
  /\ getTypeAtLocation Twice.checker Twice.safeCountOrUserInput
     = Some Twice.numberOrString
  /\ forallb
       (fun member =>
          isSafeAttribute (Some member) Twice.safeCountOrUserInput
            Twice.checker)
       (types Twice.numberOrString) = true
  /\ isSafeAttribute (Some Twice.numberOrString) Twice.safeCountOrUserInput
       Twice.checker = true
  /\ diagnoseExpression Twice.safeCountOrUserInput Twice.checker [] false
     = [diagnostic (Sample.spanned "userInput" 0 19) Xss Error].
Proof. repeat split; reflexivity. Qed.



(** ** The expression analyzer *)

Lemma resultsInBoolean_spec (op : SyntaxKind) :
  resultsInBoolean op = true <-> In op booleanOperators.
Proof.
  unfold booleanOperators. split.
  - destruct op; try discriminate; intros _; simpl; tauto.
  - intros H. simpl in H.
    repeat (destruct H as [<-|H]; [reflexivity|]). destruct H.
Qed.

(** C4. On a binary expression, [diagnoseExpression] returns without a
    diagnostic when the operator is one that results in a boolean,
    whatever the operands are; for any other operator it goes on with the
    right operand only, and the left operand has no part in the result. *)
Theorem diagnoseExpression_binary (b : NodeBase) (left : Node)
  (op : SyntaxKind) (right : Node) (fe gc : list Node)
  (checker : TypeChecker) (diagnostics : list Diagnostic) (isComponent : bool) :
  let node := mkNode b (BinaryExpression left op right) fe gc in
  (In op booleanOperators ->
   diagnoseExpression node checker diagnostics isComponent = diagnostics)
  /\ (~ In op booleanOperators ->
      diagnoseExpression node checker diagnostics isComponent
      = diagnoseExpression right checker diagnostics isComponent)
  /\ (forall (b' : NodeBase) (left' : Node) (fe' gc' : list Node),
        diagnoseExpression
          (mkNode b' (BinaryExpression left' op right) fe' gc')
          checker diagnostics isComponent
        = diagnoseExpression node checker diagnostics isComponent).
Proof.
  intros node. unfold node.
  split; [|split].
  - intros Hop. apply resultsInBoolean_spec in Hop.
    rewrite diagnoseExpression_eq. cbn. rewrite Hop. reflexivity.
  - intros Hop. rewrite diagnoseExpression_eq. cbn.
    destruct (resultsInBoolean op) eqn:E; [|reflexivity].
    apply resultsInBoolean_spec in E. contradiction.
  - intros b' left' fe' gc'.
    rewrite !diagnoseExpression_eq. reflexivity.
Qed.

Lemma diagnoseExpression_binary_witness :
  diagnoseExpression (Sample.binary EqualsEqualsEqualsToken "===")
    Sample.checker [] false = []
  /\ diagnoseExpression (Sample.binary AmpersandAmpersandToken "&&")
       Sample.checker [] false
     = diagnoseExpression (Sample.userInput 10) Sample.checker [] false.
Proof.
  split.
  - destruct (@diagnoseExpression_binary
                (Sample.spanned "a === userInput" 0 6)
                (Sample.identifier "a" 6)
                EqualsEqualsEqualsToken (Sample.userInput 11)
                [Sample.identifier "a" 6; Sample.token "===" 8;
                 Sample.userInput 11] []
                Sample.checker [] false) as (Hboolean & _ & _).
    apply Hboolean. simpl. tauto.
  - destruct (@diagnoseExpression_binary
                (Sample.spanned "a && userInput" 0 6)
                (Sample.identifier "a" 6)
                AmpersandAmpersandToken (Sample.userInput 10)
                [Sample.identifier "a" 6; Sample.token "&&" 8;
                 Sample.userInput 10] []
                Sample.checker [] false) as (_ & Hright & _).
    apply Hright. simpl. intuition discriminate.
Defined.




(** ** The tree walker *)

Lemma visitedFrom_eq (n : Node) : visitedFrom n = (visited n ++ [n])%list.
Proof. destruct n; reflexivity. Qed.

Lemma loopSourceNodes_eq (checker : TypeChecker) (n : Node)
  (ds : list Diagnostic) :
  loopSourceNodes checker n ds
  = classifyIfJsx checker
      (fold_left (fun ds c => loopSourceNodes checker c ds) (forEachChild n) ds)
      n.
Proof. destruct n; reflexivity. Qed.

Lemma loopSourceNodes_visitedFrom (checker : TypeChecker) (n : Node) :
  forall ds,
    loopSourceNodes checker n ds
    = fold_left (classifyIfJsx checker) (visitedFrom n) ds.
Proof.
  induction n as [b k cs g IH] using Node_forEachChild_ind.
  intros ds. rewrite loopSourceNodes_eq, visitedFrom_eq, fold_left_app.
  unfold visited. rewrite fold_left_flat_map. cbn [forEachChild fold_left].
  f_equal. revert ds.
  induction IH as [|c cs Hc _ IHcs]; intros ds; simpl.
  - reflexivity.
  - rewrite Hc. apply IHcs.
Qed.

Lemma recursiveDiagnoseJsxElements_visited (root : Node)
  (checker : TypeChecker) (original : list Diagnostic) :
  recursiveDiagnoseJsxElements root checker original
  = fold_left (classifyIfJsx checker) (visited root) original.
Proof.
  unfold recursiveDiagnoseJsxElements, visited.
  rewrite fold_left_flat_map. apply fold_left_ext.
  intros ds c. apply loopSourceNodes_visitedFrom.
Qed.

Lemma visitedFrom_descendants (n : Node) :
  Permutation (visitedFrom n) (n :: descendants n).
Proof.
  induction n as [b k cs g IH] using Node_forEachChild_ind.
  cbn [visitedFrom descendants].
  rewrite <- Permutation_cons_append. apply perm_skip.
  induction IH as [|c cs Hc _ IHcs]; simpl.
  - apply perm_nil.
  - apply (Permutation_app (l' := c :: descendants c)); assumption.
Qed.

Lemma visited_descendants (root : Node) :
  Permutation (visited root) (descendants root).
Proof.
  apply (Permutation_app_inv_r [root]).
  rewrite <- visitedFrom_eq, <- Permutation_cons_append.
  apply visitedFrom_descendants.
Qed.

Lemma descendantsFirst_app (l l' : list Node) :
  descendantsFirst l -> descendantsFirst l' -> descendantsFirst (l ++ l').
Proof.
  intros Hl Hl' before node after E.
  apply app_eq_app in E as [m [[E1 E2]|[E1 E2]]].
  - destruct m as [|x m].
    + rewrite app_nil_r in E1. subst l. simpl in E2.
      destruct (Hl' [] node after (eq_sym E2)) as [earlier E].
      symmetry in E. apply app_eq_nil in E as [_ E].
      exists before. rewrite E, app_nil_r. reflexivity.
    + simpl in E2. injection E2 as -> ->.
      apply (Hl before x m). exact E1.
  - destruct (Hl' m node after E2) as [earlier E].
    exists (l ++ earlier)%list. rewrite E1, E, app_assoc. reflexivity.
Qed.

Lemma visitedFrom_descendantsFirst (n : Node) :
  descendantsFirst (visitedFrom n) /\ descendantsFirst (visited n).
Proof.
  induction n as [b k cs g IH] using Node_forEachChild_ind.
  assert (Hv : descendantsFirst (visited (mkNode b k cs g))).
  { unfold visited. cbn [forEachChild].
    induction IH as [|c cs [Hc _] _ IHcs]; simpl.
    - intros [|x before] node after E; discriminate E.
    - apply descendantsFirst_app; assumption. }
  split; [|exact Hv].
  rewrite visitedFrom_eq. intros before node after E.
  apply app_eq_app in E as [m [[E1 E2]|[E1 E2]]].
  - destruct m as [|x m].
    + injection E2 as -> _. exists []. rewrite app_nil_r in E1.
      rewrite E1. reflexivity.
    + injection E2 as -> _. apply (Hv before x m). exact E1.
  - destruct m as [|x m].
    + injection E2 as <- _. exists []. rewrite app_nil_r in E1.
      rewrite E1. reflexivity.
    + destruct m; discriminate E2.
Qed.

Lemma size_visitedFrom (n m : Node) :
  In m (visitedFrom n) -> (size m <= size n)%nat.
Proof.
  revert m. induction n as [b k cs g IH] using Node_forEachChild_ind.
  intros m Hm. cbn [visitedFrom] in Hm. apply in_app_or in Hm as [Hm|Hm].
  - cbn [size]. apply Nat.le_le_succ_r.
    induction IH as [|c cs Hc _ IHcs]; simpl in *.
    + destruct Hm.
    + apply in_app_or in Hm as [Hm|Hm].
      * specialize (Hc m Hm). lia.
      * specialize (IHcs Hm). lia.
  - destruct Hm as [<-|[]]. apply Nat.le_refl.
Qed.

Lemma root_not_visited (root : Node) : ~ In root (visited root).
Proof.
  intros H. apply (Nat.lt_irrefl (size root)).
  assert (Hall : forall m, In m (visited root) -> (size m < size root)%nat).
  { clear H. destruct root as [b k cs g]. unfold visited.
    cbn [forEachChild size]. intros m Hm. apply Nat.lt_succ_r.
    induction cs as [|c cs IH]; simpl in *.
    - destruct Hm.
    - apply in_app_or in Hm as [Hm|Hm].
      + apply size_visitedFrom in Hm. lia.
      + specialize (IH Hm). lia. }
  apply Hall. exact H.
Qed.

(** C5, counterexample. The root is the fragment [<>{userInput}</>] with
    [userInput] a string: the walk does not come to the root, and it adds
    nothing, while [diagnoseJsxElement] on the root adds an [Xss]. *)
Lemma root_fragment_is_not_classified :
  isJsx Sample.fragmentUserInput = true
  /\ ~ In Sample.fragmentUserInput (visited Sample.fragmentUserInput)
  /\ recursiveDiagnoseJsxElements Sample.fragmentUserInput Sample.checker []
     = []
  /\ diagnoseJsxElement Sample.fragmentUserInput Sample.checker []
     = [diagnostic (Sample.spanned "userInput" 0 3) Xss Error].
Proof.
  split; [reflexivity|]. split; [apply root_not_visited|].
  split; reflexivity.
Qed.

(** C5, as amended. [recursiveDiagnoseJsxElements] visits every node
    below the root exactly once, the nodes below a node before the node
    itself, and calls [diagnoseJsxElement] on each visited node that is an
    element or a fragment; the root itself is not visited. *)
Theorem recursiveDiagnoseJsxElements_walk (root : Node)
  (checker : TypeChecker) (original : list Diagnostic) :
  recursiveDiagnoseJsxElements root checker original
  = fold_left
      (fun ds node =>
         if isJsx node then diagnoseJsxElement node checker ds else ds)
      (visited root) original
  /\ Permutation (visited root) (descendants root)
  /\ (forall before node after,
        visited root = (before ++ node :: after)%list ->
        exists earlier, before = (earlier ++ visited node)%list)
  /\ ~ In root (visited root).
Proof.
  split; [apply recursiveDiagnoseJsxElements_visited|].
  split; [apply visited_descendants|].
  split; [apply visitedFrom_descendantsFirst|apply root_not_visited].
Qed.

(** ** The element classifier *)

Lemma diagnoseJsxElement_scan (b : NodeBase) (k : Kind Node)
  (checker : TypeChecker) (children : list Node) (ds : list Diagnostic) :
  fold_left
    (fun ds exp =>
       match exp with
       | mkNode _ (JsxExpression (Some e)) _ _ =>
           diagnoseExpression e checker ds (isComponentTag k)
       | _ => ds
       end)
    children ds
  = lookForExpressions checker (isComponentTag k) children ds.
Proof.
  apply fold_left_ext. intros x [b' k' fe' gc'].
  destruct k' as [| |[e|]| | | | | | | ]; reflexivity.
Qed.

Lemma diagnoseJsxElement_element (b : NodeBase) (o : JsxOpeningElement Node)
  (children fe gc : list Node) (checker : TypeChecker) (ds : list Diagnostic) :
  diagnoseJsxElement (mkNode b (JsxElement o children) fe gc) checker ds
  = if String.eqb (text (tagName o)) "script" then ds
    else
      match getSafeAttribute o with
      | Some safeAttribute =>
          safeMode checker (base safeAttribute) (getSourceFile b) children ds
      | None =>
          lookForExpressions checker
            (Text.match_UPPERCASE (text (tagName o))) children ds
      end.
Proof.
  cbn [diagnoseJsxElement].
  destruct (String.eqb (text (tagName o)) "script"); [reflexivity|].
  destruct (getSafeAttribute o); [reflexivity|].
  apply (diagnoseJsxElement_scan b (JsxElement o children)).
Qed.

Lemma diagnoseJsxElement_fragment (b : NodeBase) (children fe gc : list Node)
  (checker : TypeChecker) (ds : list Diagnostic) :
  diagnoseJsxElement (mkNode b (JsxFragment children) fe gc) checker ds
  = lookForExpressions checker false children ds.
Proof.
  cbn [diagnoseJsxElement].
  apply (diagnoseJsxElement_scan b (JsxFragment children)).
Qed.

(** C6, counterexample. The tag name of
    [<foreignObject>{userInput}</foreignObject>] starts with a lower-case
    letter and [diagnoseExpression] is called with [isComponent] true:
    the diagnostic is [ComponentXss], not [Xss]. *)
Lemma foreignObject_is_component :
  startsWithUppercase "foreignObject" = false
  /\ diagnoseJsxElement Sample.foreignObject Sample.checker []
     = diagnoseExpression (Sample.userInput 16) Sample.checker [] true
  /\ diagnoseExpression (Sample.userInput 16) Sample.checker [] true
     = [diagnostic (Sample.spanned "userInput" 0 16) ComponentXss Error]
  /\ diagnoseExpression (Sample.userInput 16) Sample.checker [] false
     = [diagnostic (Sample.spanned "userInput" 0 16) Xss Error].
Proof. repeat split; reflexivity. Qed.

(** C6, as amended. In the generic scan of an element without the [safe]
    attribute, every [JsxExpression] child that has an expression is given
    to [diagnoseExpression] with [isComponent] true iff the tag name has
    an upper-case letter [A-Z] at some place, which is so when it starts
    with one; in the scan of a fragment [isComponent] is false. *)
Theorem genericScan_isComponent (b : NodeBase) (o : JsxOpeningElement Node)
  (children fe gc : list Node) (checker : TypeChecker) (ds : list Diagnostic) :
  text (tagName o) <> "script" ->
  getSafeAttribute o = None ->
  let tag := text (tagName o) in
  diagnoseJsxElement (mkNode b (JsxElement o children) fe gc) checker ds
  = fold_left
      (fun ds exp =>
         match kind exp with
         | JsxExpression (Some e) =>
             diagnoseExpression e checker ds (Text.match_UPPERCASE tag)
         | _ => ds
         end)
      children ds
  /\ (Text.match_UPPERCASE tag = true <->
      exists before c after,
        tag = before ++ String c after /\ Text.isUpper c = true)
  /\ (startsWithUppercase tag = true -> Text.match_UPPERCASE tag = true)
  /\ diagnoseJsxElement (mkNode b (JsxFragment children) fe gc) checker ds
     = fold_left
         (fun ds exp =>
            match kind exp with
            | JsxExpression (Some e) => diagnoseExpression e checker ds false
            | _ => ds
            end)
         children ds.
Proof.
  intros Hs Hm tag. split; [|split; [|split]].
  - rewrite diagnoseJsxElement_element, Hm.
    apply String.eqb_neq in Hs. rewrite Hs. reflexivity.
  - apply match_UPPERCASE_spec.
  - apply startsWithUppercase_match.
  - apply diagnoseJsxElement_fragment.
Qed.

Lemma genericScan_isComponent_witness :
  diagnoseJsxElement Sample.userCard Sample.checker []
  = [diagnostic (Sample.spanned "userInput" 0 11) ComponentXss Error]
  /\ diagnoseJsxElement (Sample.divUserInput 0) Sample.checker []
     = [diagnostic (Sample.spanned "userInput" 0 6) Xss Error].
Proof.
  split.
  - destruct (@genericScan_isComponent
                (Sample.spanned "<UserCard>{userInput}</UserCard>" 0 0)
                (mkOpening (Sample.identifier "UserCard" 1) [])
                [Sample.container "{userInput}" 10 (Sample.userInput 11)]
                (forEachChild Sample.userCard) [] Sample.checker [])
      as (Hscan & _); [discriminate|reflexivity|].
    etransitivity; [exact Hscan|reflexivity].
  - destruct (@genericScan_isComponent
                (Sample.spanned "<div>{userInput}</div>" 0 0)
                (mkOpening (Sample.identifier "div" 1) [])
                [Sample.container "{userInput}" 5 (Sample.userInput 6)]
                (forEachChild (Sample.divUserInput 0)) [] Sample.checker [])
      as (Hscan & _); [discriminate|reflexivity|].
    etransitivity; [exact Hscan|reflexivity].
Defined.

Lemma alreadyWarned_app (ds ds' : list Diagnostic) (marker : NodeBase)
  (file_ : SourceFile) :
  alreadyWarned (ds ++ ds') marker file_
  = alreadyWarned ds marker file_ || alreadyWarned ds' marker file_.
Proof. apply existsb_app. Qed.

Lemma alreadyWarned_diagnostic (marker : NodeBase) (error : ErrorKey)
  (category : DiagnosticCategory) :
  getStart marker = pos marker + 1 ->
  alreadyWarned [diagnostic marker error category] marker
    (getSourceFile marker) = true.
Proof.
  intros Hstart. unfold alreadyWarned, diagnostic. simpl.
  rewrite Hstart, Z.eqb_refl, String.eqb_refl. reflexivity.
Qed.

Lemma safeModeStep_cases (checker : TypeChecker) (marker : NodeBase)
  (file_ : SourceFile) (ds : list Diagnostic) (exp : Node) :
  safeModeStep checker marker file_ ds exp = ds
  \/ safeModeStep checker marker file_ ds exp
     = (ds ++ [diagnostic marker DoubleEscape Error])%list
  \/ (alreadyWarned ds marker file_ = false
      /\ safeModeStep checker marker file_ ds exp
         = (ds ++ [diagnostic marker UnusedSafe Warning])%list).
Proof.
  unfold safeModeStep.
  destruct (isJsxElement exp || usesEscapeHtml exp); [right; left; reflexivity|].
  destruct (kind exp) as [| |[e|]| | | | | | | ]; try (left; reflexivity).
  destruct (isSafeAttribute _ _ _), (Text.startsWith _ _),
    (alreadyWarned ds marker file_); simpl;
    try (left; reflexivity).
  right. right. split; reflexivity.
Qed.

(** When exactly one character stands before the [safe] attribute, so
    that [getStart()] is [pos + 1], the test of [diagnostics.some] does
    what its comment says: after a diagnostic at the attribute no
    [UnusedSafe] warning is added, and the loop adds one at most. *)
Lemma unusedSafe_at_most_once_after_one_space (checker : TypeChecker)
  (marker : NodeBase) (children : list Node) (ds : list Diagnostic) :
  getStart marker = pos marker + 1 ->
  let out :=
    fold_left (safeModeStep checker marker (getSourceFile marker))
      children ds in
  let warnings l := List.length (filter (isUnusedSafeAt marker) l) in
  (alreadyWarned ds marker (getSourceFile marker) = true ->
   warnings out = warnings ds)
  /\ (warnings out <= S (warnings ds))%nat.
Proof.
  intros Hstart. cbv zeta. revert ds.
  induction children as [|exp children IH]; intros ds; cbn [fold_left].
  - split; [reflexivity|]. apply Nat.le_succ_diag_r.
  - destruct (IH (safeModeStep checker marker (getSourceFile marker) ds exp))
      as [IHwarned IHmost].
    destruct (safeModeStep_cases checker marker (getSourceFile marker) ds exp)
      as [E|[E|[Hfresh E]]]; rewrite E in *.
    + split; assumption.
    + assert (Hnow :
        alreadyWarned (ds ++ [diagnostic marker DoubleEscape Error]) marker
          (getSourceFile marker) = true).
      { rewrite alreadyWarned_app, alreadyWarned_diagnostic by exact Hstart.
        apply orb_true_r. }
      specialize (IHwarned Hnow). rewrite IHwarned.
      rewrite filter_app, app_nil_r.
      split; [reflexivity|]. apply Nat.le_succ_diag_r.
    + assert (Hnow :
        alreadyWarned (ds ++ [diagnostic marker UnusedSafe Warning]) marker
          (getSourceFile marker) = true).
      { rewrite alreadyWarned_app, alreadyWarned_diagnostic by exact Hstart.
        apply orb_true_r. }
      specialize (IHwarned Hnow). rewrite IHwarned.
      rewrite filter_app, length_app. split.
      * rewrite Hfresh. discriminate.
      * simpl. destruct (isUnusedSafeAt marker _); simpl; lia.
Qed.

(** C7, the failing input. In [<div  safe>{count}{total}</div>] two
    spaces stand before [safe], so that [getStart()] of the attribute is
    not [pos + 1]: the test of [diagnostics.some] does not see the warning
    that the first child made, and the second child, a number as well,
    makes the same [UnusedSafe] warning again at the same place. With one
    space the second warning is held back. *)
Theorem unusedSafe_twice_after_two_spaces :
  let marker := base (Sample.safeMarker 2) in
  let warning := diagnostic marker UnusedSafe Warning in
  getStart marker <> pos marker + 1
  /\ start warning = Some (getStart marker)
  /\ diagnoseJsxElement Sample.divSafeTwoSpaces Sample.checker []
     = [warning; warning]
  /\ diagnoseJsxElement Sample.divSafeOneSpace Sample.checker []
     = [diagnostic (base (Sample.safeMarker 1)) UnusedSafe Warning].
Proof.
  cbv zeta. split; [discriminate|]. repeat split; reflexivity.
Qed.

Lemma isDoubleEscapeAt_doubleEscape (marker : NodeBase) :
  isDoubleEscapeAt marker (diagnostic marker DoubleEscape Error) = true.
Proof.
  unfold isDoubleEscapeAt, diagnostic. simpl.
  rewrite !Z.eqb_refl, String.eqb_refl. reflexivity.
Qed.

Lemma safeModeStep_doubleEscape (checker : TypeChecker) (marker : NodeBase)
  (file_ : SourceFile) (ds : list Diagnostic) (exp : Node) :
  filter (isDoubleEscapeAt marker) (safeModeStep checker marker file_ ds exp)
  = (filter (isDoubleEscapeAt marker) ds
     ++ if doubleEscapes exp then [diagnostic marker DoubleEscape Error]
        else [])%list.
Proof.
  unfold safeModeStep, doubleEscapes.
  destruct (isJsxElement exp || usesEscapeHtml exp).
  - rewrite filter_app. simpl. rewrite isDoubleEscapeAt_doubleEscape.
    reflexivity.
  - rewrite app_nil_r.
    destruct (kind exp) as [| |[e|]| | | | | | | ]; try reflexivity.
    destruct (_ && _); [|reflexivity].
    rewrite filter_app, app_nil_r. reflexivity.
Qed.

Lemma safeModeLoop_doubleEscape (checker : TypeChecker) (marker : NodeBase)
  (file_ : SourceFile) (children : list Node) (ds : list Diagnostic) :
  filter (isDoubleEscapeAt marker)
    (fold_left (safeModeStep checker marker file_) children ds)
  = (filter (isDoubleEscapeAt marker) ds
     ++ map (fun _ => diagnostic marker DoubleEscape Error)
          (filter doubleEscapes children))%list.
Proof.
  revert ds. induction children as [|exp children IH]; intros ds; simpl.
  - rewrite app_nil_r. reflexivity.
  - rewrite IH, safeModeStep_doubleEscape, <- app_assoc.
    destruct (doubleEscapes exp); reflexivity.
Qed.

Lemma safeMode_doubleEscape (checker : TypeChecker) (marker : NodeBase)
  (file_ : SourceFile) (children : list Node) (ds : list Diagnostic) :
  filter (isDoubleEscapeAt marker)
    (safeMode checker marker file_ children ds)
  = (filter (isDoubleEscapeAt marker) ds
     ++ map (fun _ => diagnostic marker DoubleEscape Error)
          (filter doubleEscapes children))%list.
Proof.
  assert (Hearly :
    filter (isDoubleEscapeAt marker)
      (ds ++ [diagnostic marker UnusedSafe Warning])
    = (filter (isDoubleEscapeAt marker) ds ++ [])%list).
  { rewrite filter_app. reflexivity. }
  destruct children as [|[b k fe gc] [|exp' children]].
  - exact Hearly.
  - destruct k; try apply safeModeLoop_doubleEscape. exact Hearly.
  - destruct k; apply safeModeLoop_doubleEscape.
Qed.

(** C8, counterexample. In [<div safe>{myEscapeHtml(x)}</div>] the
    expression is a call of an identifier that ends in [escapeHtml], and
    [diagnoseJsxElement] adds no diagnostic: the text does not match
    [ESCAPE_HTML_REGEX], which is anchored at the start of the text. *)
Lemma myEscapeHtml_is_not_reported :
  identifierEndingInEscapeHtmlCalled (text Sample.myEscapeHtmlCall) = true
  /\ getSafeAttribute
       (mkOpening (Sample.identifier "div" 1) [Sample.safeMarker 1])
     = Some (Sample.safeMarker 1)
  /\ Text.match_ESCAPE_HTML_REGEX (text Sample.myEscapeHtmlCall) = false
  /\ diagnoseJsxElement Sample.divSafeMyEscapeHtml Sample.checker [] = [].
Proof. repeat split; reflexivity. Qed.

(** C8, as amended. In an element with the [safe] attribute, one
    [DoubleEscape] error anchored at the attribute is added for every
    child that is an element and for every [JsxExpression] child whose
    expression has a text that matches [ESCAPE_HTML_REGEX], that is a text
    that begins with [escapeHtml] in any letter case after at most one
    qualifier of word characters and a dot; when such an expression is the
    only child, as in [<div safe>{escapeHtml(x)}</div>], that error is all
    that is added. *)
Theorem doubleEscape_for_each_escapeHtml_child (b : NodeBase)
  (o : JsxOpeningElement Node) (children fe gc : list Node) (marker : Node)
  (checker : TypeChecker) (ds : list Diagnostic) :
  text (tagName o) <> "script" ->
  getSafeAttribute o = Some marker ->
  let out :=
    diagnoseJsxElement (mkNode b (JsxElement o children) fe gc) checker ds in
  let doubleEscape := diagnostic (base marker) DoubleEscape Error in
  filter (isDoubleEscapeAt (base marker)) out
  = (filter (isDoubleEscapeAt (base marker)) ds
     ++ map (fun _ => doubleEscape)
          (filter (fun exp => isJsxElement exp || usesEscapeHtml exp)
             children))%list
  /\ (forall exp, children = [exp] -> usesEscapeHtml exp = true ->
      out = (ds ++ [doubleEscape])%list)
  /\ (forall exp,
        usesEscapeHtml exp = true <->
        exists b' e fe' gc' qualifier name rest,
          exp = mkNode b' (JsxExpression (Some e)) fe' gc'
          /\ text e = qualifier ++ name ++ rest
          /\ Text.lowerCase name = "escapehtml"
          /\ (qualifier = ""
              \/ exists w, w <> "" /\ Text.allWord w = true
                           /\ qualifier = w ++ ".")).
Proof.
  intros Hs Hm out doubleEscape. unfold out, doubleEscape.
  apply String.eqb_neq in Hs.
  rewrite diagnoseJsxElement_element, Hs, Hm.
  split; [apply safeMode_doubleEscape|]. split.
  - intros [b' k' fe' gc'] -> He. unfold usesEscapeHtml in He.
    destruct k' as [| |[e|]| | | | | | | ]; try discriminate He.
    cbn [kind] in He.
    unfold safeMode. cbn [fold_left].
    unfold safeModeStep, isJsxElement, usesEscapeHtml.
    cbn [kind orb]. rewrite He. reflexivity.
  - intros [b' k' fe' gc']. unfold usesEscapeHtml. cbn [kind]. split.
    + destruct k' as [| |[e|]| | | | | | | ]; try discriminate.
      intros He. apply match_ESCAPE_HTML_REGEX_spec in He
        as (qualifier & name & rest & Et & Hn & Hq).
      exists b', e, fe', gc', qualifier, name, rest.
      repeat split; assumption.
    + intros (b1 & e & fe1 & gc1 & qualifier & name & rest & E & Et & Hn & Hq).
      injection E as -> -> -> ->.
      apply match_ESCAPE_HTML_REGEX_spec.
      exists qualifier, name, rest. repeat split; assumption.
Qed.

Lemma doubleEscape_for_each_escapeHtml_child_witness :
  diagnoseJsxElement Sample.divSafeEscapeHtml Sample.checker []
  = [diagnostic (base (Sample.safeMarker 1)) DoubleEscape Error].
Proof.
  destruct (@doubleEscape_for_each_escapeHtml_child
              (Sample.spanned "<div safe>{escapeHtml(x)}</div>" 0 0)
              (mkOpening (Sample.identifier "div" 1) [Sample.safeMarker 1])
              [Sample.container "{escapeHtml(x)}" 10 Sample.escapeHtmlCall]
              (forEachChild Sample.divSafeEscapeHtml) []
              (Sample.safeMarker 1) Sample.checker [])
    as (_ & Honly & _); [discriminate|reflexivity|].
  apply (Honly (Sample.container "{escapeHtml(x)}" 10 Sample.escapeHtmlCall));
    reflexivity.
Defined.

(** C10, counterexample. In [<script><div>{userInput}</div></script>]
    the walk comes to the [div] inside the [script] element and adds an
    [Xss] for [userInput]: a diagnostic is made for what the [script]
    element holds. *)
Lemma script_content_is_diagnosed :
  isJsxElement Sample.scriptWithDiv = true
  /\ In Sample.scriptWithDiv (visited (Sample.sourceFile Sample.scriptWithDiv))
  /\ In (Sample.divUserInput 8) (descendants Sample.scriptWithDiv)
  /\ recursiveDiagnoseJsxElements (Sample.sourceFile Sample.scriptWithDiv)
       Sample.checker []
     = [diagnostic (Sample.spanned "userInput" 0 14) Xss Error].
Proof.
  split; [reflexivity|]. split; [|split; [|reflexivity]].
  - cbn. repeat first [left; reflexivity | right].
  - cbn. repeat first [left; reflexivity | right].
Qed.

(** C10, as amended. On an element whose tag name is [script]
    [diagnoseJsxElement] returns at once and adds no diagnostic, whatever
    the attributes and the children are; in the walk the [script] element
    adds nothing of its own, only the elements and fragments below it are
    diagnosed, each as on its own, and nothing is added when there is
    none below it. *)
Theorem script_element_adds_nothing (b : NodeBase)
  (o : JsxOpeningElement Node) (children fe gc : list Node)
  (checker : TypeChecker) (ds : list Diagnostic) :
  text (tagName o) = "script" ->
  let node := mkNode b (JsxElement o children) fe gc in
  diagnoseJsxElement node checker ds = ds
  /\ loopSourceNodes checker node ds
     = fold_left
         (fun ds below =>
            if isJsx below then diagnoseJsxElement below checker ds else ds)
         (visited node) ds
  /\ (forallb (fun below => negb (isJsx below)) (descendants node) = true ->
      loopSourceNodes checker node ds = ds).
Proof.
  intros Hs node.
  assert (Hnode : diagnoseJsxElement node checker ds = ds).
  { unfold node. rewrite diagnoseJsxElement_element, Hs. reflexivity. }
  assert (Hwalk :
    loopSourceNodes checker node ds
    = fold_left (classifyIfJsx checker) (visited node) ds).
  { rewrite loopSourceNodes_visitedFrom, visitedFrom_eq, fold_left_app.
    cbn [fold_left]. unfold classifyIfJsx at 1. cbn [isJsx].
    unfold node at 1 2.
    rewrite diagnoseJsxElement_element, Hs. reflexivity. }
  split; [exact Hnode|]. split; [exact Hwalk|].
  intros Hnone. rewrite Hwalk. apply fold_left_id. intros x m Hm.
  apply (Permutation_in _ (visited_descendants node)) in Hm.
  rewrite forallb_forall in Hnone. specialize (Hnone m Hm).
  apply negb_true_iff in Hnone. unfold classifyIfJsx. rewrite Hnone.
  reflexivity.
Qed.

Lemma script_element_adds_nothing_witness :
  diagnoseJsxElement Sample.scriptUserInput Sample.checker [] = []
  /\ loopSourceNodes Sample.checker Sample.scriptUserInput [] = [].
Proof.
  destruct (@script_element_adds_nothing
              (Sample.spanned "<script>{userInput}</script>" 0 0)
              (mkOpening (Sample.identifier "script" 1) [])
              [Sample.container "{userInput}" 8 (Sample.userInput 9)]
              (forEachChild Sample.scriptUserInput) []
              Sample.checker [] eq_refl)
    as (Hnode & _ & Hnone).
  split; [exact Hnode|]. apply Hnone. reflexivity.
Defined.


(** ** Induction along the calls of the analysis *)

Lemma diagnoseExpression_reduced (node : Node) (checker : TypeChecker)
  (ds : list Diagnostic) (isComponent : bool) :
  diagnoseExpression node checker ds isComponent
  = diagnoseReduced (unwrapParenthesis node) checker ds isComponent.
Proof. rewrite diagnoseExpression_eq. reflexivity. Qed.

Lemma reach_In (x : Node) (l : list Node) :
  In x l -> (reach x <= list_sum (map reach l))%nat.
Proof.
  induction l as [|y l IH]; simpl; intros H.
  - destruct H.
  - destruct H as [->|H]; [lia|]. specialize (IH H). lia.
Qed.

Lemma reach_unwrapParenthesis (n : Node) :
  (reach (unwrapParenthesis n) <= reach n)%nat.
Proof.
  destruct n as [b k fe gc]. destruct k; simpl; lia.
Qed.

Lemma reach_ind (P : Node -> Prop) :
  (forall n, (forall m, (reach m < reach n)%nat -> P m) -> P n) ->
  forall n, P n.
Proof.
  intros step.
  assert (H : forall k n, (reach n < k)%nat -> P n).
  { induction k as [|k IH]; intros n Hn; [lia|].
    apply step. intros m Hm. apply IH. lia. }
  intros n. apply (H (S (reach n))). lia.
Qed.

Lemma reach_child (b : NodeBase) (k : Kind Node) (fe gc : list Node)
  (exp e : Node) :
  (match k with
   | JsxElement _ cs | JsxFragment cs => In exp cs
   | _ => False
   end) ->
  kind exp = JsxExpression (Some e) ->
  (reach (unwrapParenthesis e) < reach (mkNode b k fe gc))%nat.
Proof.
  intros Hin He.
  assert (He' : (reach e < reach exp)%nat).
  { destruct exp as [b' k' fe' gc']. cbn [kind] in He. subst k'.
    simpl. lia. }
  pose proof (reach_unwrapParenthesis e) as Hu.
  destruct k; try contradiction; apply reach_In in Hin; simpl; lia.
Qed.

(** ** The list of diagnostics only grows *)

Lemma pushedOnto_refl (ds : list Diagnostic) : pushedOnto ds ds.
Proof. exists []. rewrite app_nil_r. split; [reflexivity|constructor]. Qed.

Lemma pushedOnto_trans (a b c : list Diagnostic) :
  pushedOnto a b -> pushedOnto b c -> pushedOnto a c.
Proof.
  intros (x & -> & Hx) (y & -> & Hy). exists (x ++ y)%list.
  rewrite app_assoc. split; [reflexivity|]. apply Forall_app. split; assumption.
Qed.

Lemma pushedOnto_push (ds : list Diagnostic) (d : Diagnostic) :
  built d -> pushedOnto ds (ds ++ [d]).
Proof.
  intros Hd. exists [d]. split; [reflexivity|]. constructor; [exact Hd|constructor].
Qed.

Lemma built_diagnostic (node : NodeBase) :
  built (diagnostic node UnusedSafe Warning)
  /\ built (diagnostic node DoubleEscape Error)
  /\ built (diagnostic node Xss Error)
  /\ built (diagnostic node ComponentXss Error).
Proof. repeat split; exists node; tauto. Qed.

Lemma pushedOnto_fold {A : Type} (f : list Diagnostic -> A -> list Diagnostic)
  (l : list A) :
  (forall x ds, In x l -> pushedOnto ds (f ds x)) ->
  forall ds, pushedOnto ds (fold_left f l ds).
Proof.
  induction l as [|x l IH]; intros H ds; simpl.
  - apply pushedOnto_refl.
  - apply pushedOnto_trans with (f ds x).
    + apply H. left. reflexivity.
    + apply IH. intros y ds' Hy. apply H. right. exact Hy.
Qed.

Lemma safeModeStep_pushed (checker : TypeChecker) (marker : NodeBase)
  (file_ : SourceFile) (ds : list Diagnostic) (exp : Node) :
  pushedOnto ds (safeModeStep checker marker file_ ds exp).
Proof.
  destruct (built_diagnostic marker) as (Hu & Hd & _).
  destruct (safeModeStep_cases checker marker file_ ds exp)
    as [E|[E|[_ E]]]; rewrite E.
  - apply pushedOnto_refl.
  - apply pushedOnto_push. exact Hd.
  - apply pushedOnto_push. exact Hu.
Qed.

Lemma safeMode_pushed (checker : TypeChecker) (marker : NodeBase)
  (file_ : SourceFile) (children : list Node) (ds : list Diagnostic) :
  pushedOnto ds (safeMode checker marker file_ children ds).
Proof.
  destruct (built_diagnostic marker) as (Hu & _).
  assert (Hloop :
    pushedOnto ds (fold_left (safeModeStep checker marker file_) children ds)).
  { apply pushedOnto_fold. intros x ds' _. apply safeModeStep_pushed. }
  unfold safeMode.
  destruct children as [|[b k fe gc] [|exp' children]].
  - apply pushedOnto_push. exact Hu.
  - destruct k; try exact Hloop. apply pushedOnto_push. exact Hu.
  - destruct k; exact Hloop.
Qed.

Lemma diagnose_pushed (n : Node) :
  forall (checker : TypeChecker) (ds : list Diagnostic),
    pushedOnto ds (diagnoseJsxElement n checker ds)
    /\ forall isComponent,
         pushedOnto ds (diagnoseReduced n checker ds isComponent).
Proof.
  induction n as [n IH] using reach_ind. intros checker ds.
  assert (Hexpr : forall e ds' ic,
            (reach (unwrapParenthesis e) < reach n)%nat ->
            pushedOnto ds' (diagnoseExpression e checker ds' ic)).
  { intros e ds' ic He. rewrite diagnoseExpression_reduced.
    apply (IH _ He). }
  destruct n as [b k fe gc]. split.
  - assert (Hscan : forall ic cs,
              (forall exp, In exp cs ->
                 match k with
                 | JsxElement _ cs' | JsxFragment cs' => In exp cs'
                 | _ => False
                 end) ->
              pushedOnto ds (lookForExpressions checker ic cs ds)).
    { intros ic cs Hcs. unfold lookForExpressions.
      apply pushedOnto_fold. intros exp ds' Hexp.
      destruct (kind exp) as [| |[e|]| | | | | | | ] eqn:Ek;
        try apply pushedOnto_refl.
      apply Hexpr. apply (reach_child b k fe gc exp (Hcs exp Hexp) Ek). }
    destruct k as [o cs|cs|e| |e|l op r|c t f| | | ];
      try apply pushedOnto_refl.
    + rewrite diagnoseJsxElement_element.
      destruct (String.eqb _ _); [apply pushedOnto_refl|].
      destruct (getSafeAttribute o); [apply safeMode_pushed|].
      apply Hscan. intros exp H. exact H.
    + rewrite diagnoseJsxElement_fragment.
      apply Hscan. intros exp H. exact H.
  - intros ic.
    assert (Hcandidate :
      pushedOnto ds
        (if isSafeAttribute (getTypeAtLocation checker (mkNode b k fe gc))
              (mkNode b k fe gc) checker
         then ds
         else
           let st :=
             if isIdentifier (mkNode b k fe gc) then (false, ds)
             else fold_left (scanChildren checker) gc (false, ds) in
           if fst st then snd st
           else if ic || isJsxFragment (mkNode b k fe gc)
                then (snd st ++ [diagnostic b ComponentXss Error])%list
                else (snd st ++ [diagnostic b Xss Error])%list)).
    { destruct (isSafeAttribute _ _ _); [apply pushedOnto_refl|].
      destruct (built_diagnostic b) as (_ & _ & Hx & Hc).
      assert (Hst : forall st,
        st = (if isIdentifier (mkNode b k fe gc) then (false, ds)
              else fold_left (scanChildren checker) gc (false, ds)) ->
        pushedOnto ds (snd st)).
      { intros st ->. destruct (isIdentifier _); [apply pushedOnto_refl|].
        rewrite scanChildren_fold. cbn [snd].
        apply pushedOnto_fold. intros tag ds' Htag.
        apply filter_In in Htag as [Htag _].
        apply IH. apply reach_In in Htag. simpl. lia. }
      cbv zeta. specialize (Hst _ eq_refl).
      destruct (fst _); [exact Hst|].
      destruct (ic || _);
        (eapply pushedOnto_trans; [exact Hst|apply pushedOnto_push; assumption]). }
    unfold diagnoseReduced. cbn [kind base getChildren].
    destruct k as [o cs|cs|e| |e|l op r|c t f| | | ];
      try exact Hcandidate; try apply pushedOnto_refl.
    + destruct (resultsInBoolean op); [apply pushedOnto_refl|].
      apply Hexpr. pose proof (reach_unwrapParenthesis r). simpl. lia.
    + eapply pushedOnto_trans; apply Hexpr.
      * pose proof (reach_unwrapParenthesis t). simpl. lia.
      * pose proof (reach_unwrapParenthesis f). simpl. lia.
Qed.

(** X1. The three entry points only push onto the list they are given:
    what was in it stays in front, in its order, and everything that is
    added was built by [diagnostic] as an [UnusedSafe] warning or as a
    [DoubleEscape], [Xss] or [ComponentXss] error. *)
Theorem analysis_only_pushes (node : Node) (checker : TypeChecker)
  (diagnostics : list Diagnostic) (isComponent : bool) :
  pushedOnto diagnostics (diagnoseJsxElement node checker diagnostics)
  /\ pushedOnto diagnostics
       (diagnoseExpression node checker diagnostics isComponent)
  /\ pushedOnto diagnostics
       (recursiveDiagnoseJsxElements node checker diagnostics).
Proof.
  split; [apply diagnose_pushed|]. split.
  - rewrite diagnoseExpression_reduced. apply diagnose_pushed.
  - rewrite recursiveDiagnoseJsxElements_visited.
    apply pushedOnto_fold. intros n ds _. unfold classifyIfJsx.
    destruct (isJsx n); [apply diagnose_pushed|apply pushedOnto_refl].
Qed.

(** X2. A tree in which no node below the root is an element or a
    fragment gets no diagnostic: the list comes back as it was given. *)
Theorem walk_without_markup (root : Node) (checker : TypeChecker)
  (original : list Diagnostic) :
  forallb (fun n => negb (isJsx n)) (descendants root) = true ->
  recursiveDiagnoseJsxElements root checker original = original.
Proof.
  intros Hnone. rewrite recursiveDiagnoseJsxElements_visited.
  apply fold_left_id. intros ds n Hn.
  apply (Permutation_in _ (visited_descendants root)) in Hn.
  rewrite forallb_forall in Hnone. specialize (Hnone n Hn).
  apply negb_true_iff in Hnone. unfold classifyIfJsx. rewrite Hnone.
  reflexivity.
Qed.

Lemma walk_without_markup_witness :
  recursiveDiagnoseJsxElements More.plainFile Sample.checker [] = [].
Proof.
  apply (@walk_without_markup More.plainFile Sample.checker []).
  reflexivity.
Defined.

(** X3. On a conditional expression [diagnoseExpression] analyses
    [whenTrue] and then [whenFalse]; the condition has no part in the
    result. *)
Theorem diagnoseExpression_conditional (b : NodeBase)
  (condition whenTrue whenFalse : Node) (fe gc : list Node)
  (checker : TypeChecker) (diagnostics : list Diagnostic) (isComponent : bool) :
  let node :=
    mkNode b (ConditionalExpression condition whenTrue whenFalse) fe gc in
  diagnoseExpression node checker diagnostics isComponent
  = diagnoseExpression whenFalse checker
      (diagnoseExpression whenTrue checker diagnostics isComponent)
      isComponent
  /\ (forall (b' : NodeBase) (condition' : Node) (fe' gc' : list Node),
        diagnoseExpression
          (mkNode b' (ConditionalExpression condition' whenTrue whenFalse)
             fe' gc')
          checker diagnostics isComponent
        = diagnoseExpression node checker diagnostics isComponent).
Proof.
  split.
  - rewrite diagnoseExpression_eq. reflexivity.
  - intros b' condition' fe' gc'. rewrite !diagnoseExpression_eq. reflexivity.
Qed.

(** X4. One level of parentheses is taken off and no more: a
    parenthesized expression is analysed as the expression inside it when
    that one is not parenthesized itself; when it is, the inner
    parenthesis is the candidate whose type is asked for, and what is
    inside it is not analysed as a binary or conditional expression. *)
Theorem diagnoseExpression_parenthesis (b : NodeBase) (inner : Node)
  (fe gc : list Node) (checker : TypeChecker) (diagnostics : list Diagnostic)
  (isComponent : bool) :
  let node := mkNode b (ParenthesizedExpression inner) fe gc in
  (unwrapParenthesis inner = inner ->
   diagnoseExpression node checker diagnostics isComponent
   = diagnoseExpression inner checker diagnostics isComponent)
  /\ (unwrapParenthesis inner <> inner ->
      diagnoseExpression node checker diagnostics isComponent
      = if isSafeAttribute (getTypeAtLocation checker inner) inner checker
        then diagnostics
        else
          let st :=
            fold_left (scanChildren checker) (getChildren inner)
              (false, diagnostics) in
          if fst st then snd st
          else (snd st
                ++ [diagnostic (base inner)
                      (if isComponent then ComponentXss else Xss) Error])%list).
Proof.
  cbv zeta. split.
  - intros Hinner. rewrite !diagnoseExpression_reduced, Hinner. reflexivity.
  - intros Hinner. rewrite diagnoseExpression_reduced.
    cbn [unwrapParenthesis]. unfold diagnoseReduced.
    destruct inner as [b' k' fe' gc'].
    destruct k'; try (contradiction Hinner; reflexivity).
    cbn [kind isIdentifier isJsxFragment base getChildren].
    rewrite orb_false_r. destruct isComponent; reflexivity.
Qed.

Lemma diagnoseExpression_parenthesis_witness :
  diagnoseExpression More.parenthesized Sample.checker [] false
  = diagnoseExpression (Sample.userInput 7) Sample.checker [] false.
Proof.
  destruct (@diagnoseExpression_parenthesis
              (Sample.spanned "(userInput)" 0 6) (Sample.userInput 7)
              [Sample.userInput 7]
              [Sample.token "(" 6; Sample.userInput 7; Sample.token ")" 16]
              Sample.checker [] false) as [Hone _].
  apply Hone. reflexivity.
Defined.

(** X5. A candidate that is not classified safe and is an identifier, or
    has no element or fragment among the nodes of [getChildren()], gets
    exactly one diagnostic, anchored at its own span: [ComponentXss] when
    [isComponent] is set, [Xss] otherwise. *)
Theorem diagnoseExpression_reports_candidate (node : Node)
  (checker : TypeChecker) (diagnostics : list Diagnostic) (isComponent : bool) :
  let expr := unwrapParenthesis node in
  isCandidate expr = true ->
  isSafeAttribute (getTypeAtLocation checker expr) expr checker = false ->
  isIdentifier expr = true \/ existsb isJsx (getChildren expr) = false ->
  diagnoseExpression node checker diagnostics isComponent
  = (diagnostics
     ++ [diagnostic (base expr) (if isComponent then ComponentXss else Xss)
           Error])%list.
Proof.
  intros expr Hc Hs Hj. rewrite diagnoseExpression_reduced. fold expr.
  unfold diagnoseReduced, isCandidate in *.
  assert (Hf : isJsxFragment expr = false).
  { unfold isJsxFragment. destruct (kind expr); try reflexivity.
    discriminate Hc. }
  assert (Hst :
    (if isIdentifier expr then (false, diagnostics)
     else fold_left (scanChildren checker) (getChildren expr)
            (false, diagnostics)) = (false, diagnostics)).
  { destruct (isIdentifier expr); [reflexivity|].
    destruct Hj as [Hj|Hj]; [discriminate Hj|].
    rewrite scanChildren_fold, Hj. cbn [orb]. f_equal.
    assert (Hnil : filter isJsx (getChildren expr) = []).
    { clear - Hj. induction (getChildren expr) as [|x l IH]; simpl in *.
      - reflexivity.
      - apply orb_false_iff in Hj as [Hx Hl]. rewrite Hx. apply IH, Hl. }
    rewrite Hnil. reflexivity. }
  destruct (kind expr); try discriminate Hc;
    rewrite Hs; cbv zeta; rewrite Hst; cbn [fst snd];
    rewrite Hf, orb_false_r; destruct isComponent; reflexivity.
Qed.

Lemma diagnoseExpression_reports_candidate_witness :
  diagnoseExpression More.parenthesized Sample.checker [] true
  = [diagnostic (Sample.spanned "userInput" 0 7) ComponentXss Error].
Proof.
  apply (@diagnoseExpression_reports_candidate
           More.parenthesized Sample.checker [] true);
    [reflexivity|reflexivity|left; reflexivity].
Defined.

(** ** The [safe] attribute *)

(** X6. [getSafeAttribute] gives the first attribute whose text is
    exactly [safe], and nothing when no attribute has that text. *)
Theorem getSafeAttribute_first (element : JsxOpeningElement Node) :
  match getSafeAttribute element with
  | Some attribute =>
      exists before after,
        attributes element = (before ++ attribute :: after)%list
        /\ text attribute = "safe"
        /\ Forall (fun a => text a <> "safe") before
  | None => Forall (fun a => text a <> "safe") (attributes element)
  end.
Proof.
  unfold getSafeAttribute.
  induction (attributes element) as [|a l IH]; simpl.
  - constructor.
  - destruct (String.eqb_spec (text a) "safe") as [Ea|Ea].
    + exists [], l. repeat split; [exact Ea|constructor].
    + destruct (getSafeAttribute_loop l) as [found|].
      * destruct IH as (before & after & -> & Hf & Hb).
        exists (a :: before), after. repeat split; [exact Hf|].
        constructor; assumption.
      * constructor; assumption.
Qed.

Lemma safeMode_atMarker (checker : TypeChecker) (marker : NodeBase)
  (file_ : SourceFile) (children : list Node) (ds : list Diagnostic) :
  exists added,
    safeMode checker marker file_ children ds = (ds ++ added)%list
    /\ Forall (atMarker marker) added
    /\ (List.length added <= Nat.max 1 (List.length children))%nat.
Proof.
  assert (Hloop : forall cs ds',
    exists added,
      fold_left (safeModeStep checker marker file_) cs ds'
      = (ds' ++ added)%list
      /\ Forall (atMarker marker) added
      /\ (List.length added <= List.length cs)%nat).
  { induction cs as [|exp cs IH]; intros ds'; cbn [fold_left].
    - exists []. rewrite app_nil_r. repeat split; [constructor|apply Nat.le_refl].
    - destruct (IH (safeModeStep checker marker file_ ds' exp))
        as (added & E & Hall & Hlen). rewrite E.
      destruct (safeModeStep_cases checker marker file_ ds' exp)
        as [E'|[E'|[_ E']]]; rewrite E'.
      + exists added. repeat split; [exact Hall|simpl; lia].
      + exists (diagnostic marker DoubleEscape Error :: added).
        rewrite <- app_assoc. repeat split.
        * constructor; [right; reflexivity|exact Hall].
        * simpl. lia.
      + exists (diagnostic marker UnusedSafe Warning :: added).
        rewrite <- app_assoc. repeat split.
        * constructor; [left; reflexivity|exact Hall].
        * simpl. lia. }
  assert (Hearly :
    exists added,
      (ds ++ [diagnostic marker UnusedSafe Warning])%list = (ds ++ added)%list
      /\ Forall (atMarker marker) added
      /\ (List.length added <= 1)%nat).
  { exists [diagnostic marker UnusedSafe Warning]. repeat split.
    - constructor; [left; reflexivity|constructor].
    - apply Nat.le_refl. }
  assert (Hmax : forall cs : list Node,
    cs <> [] -> Nat.max 1 (List.length cs) = List.length cs).
  { intros [|x cs] H; [contradiction H; reflexivity|simpl; lia]. }
  unfold safeMode.
  destruct children as [|[b k fe gc] [|exp' children]].
  - exact Hearly.
  - destruct k; try (rewrite Hmax by discriminate; apply Hloop).
    exact Hearly.
  - rewrite Hmax by discriminate. destruct k; apply Hloop.
Qed.

(** X7. In an element with the [safe] attribute (not a [script]),
    everything that is added is an [UnusedSafe] warning or a
    [DoubleEscape] error anchored at the attribute, one per child at most
    (one when there is no child): no [Xss] and no [ComponentXss] is
    added, the expressions of the children are not analysed. *)
Theorem safeMode_adds_only_marker_diagnostics (b : NodeBase)
  (o : JsxOpeningElement Node) (children fe gc : list Node) (marker : Node)
  (checker : TypeChecker) (ds : list Diagnostic) :
  text (tagName o) <> "script" ->
  getSafeAttribute o = Some marker ->
  exists added,
    diagnoseJsxElement (mkNode b (JsxElement o children) fe gc) checker ds
    = (ds ++ added)%list
    /\ Forall (atMarker (base marker)) added
    /\ (List.length added <= Nat.max 1 (List.length children))%nat.
Proof.
  intros Hs Hm. apply String.eqb_neq in Hs.
  rewrite diagnoseJsxElement_element, Hs, Hm. apply safeMode_atMarker.
Qed.

Lemma safeMode_adds_only_marker_diagnostics_witness :
  exists added,
    diagnoseJsxElement Sample.divSafeMyEscapeHtml Sample.checker []
    = ([] ++ added)%list
    /\ Forall (atMarker (base (Sample.safeMarker 1))) added
    /\ (List.length added <= 1)%nat.
Proof.
  apply (@safeMode_adds_only_marker_diagnostics
           (Sample.spanned "<div safe>{myEscapeHtml(x)}</div>" 0 0)
           (mkOpening (Sample.identifier "div" 1) [Sample.safeMarker 1])
           [Sample.container "{myEscapeHtml(x)}" 10 Sample.myEscapeHtmlCall]
           (forEachChild Sample.divSafeMyEscapeHtml) []
           (Sample.safeMarker 1) Sample.checker []);
    [discriminate|reflexivity].
Defined.



(** X9. When exactly one character stands before the [safe] attribute
    ([getStart()] is [pos + 1]) and the attribute is in the file of the
    element, one call of [diagnoseJsxElement] adds one [UnusedSafe]
    warning at the attribute at most. *)
Theorem safeMode_warns_once (b : NodeBase) (o : JsxOpeningElement Node)
  (children fe gc : list Node) (marker : Node) (checker : TypeChecker)
  (ds : list Diagnostic) :
  text (tagName o) <> "script" ->
  getSafeAttribute o = Some marker ->
  getStart (base marker) = pos (base marker) + 1 ->
  getSourceFile (base marker) = getSourceFile b ->
  let warnings l :=
    List.length (filter (isUnusedSafeAt (base marker)) l) in
  (warnings
     (diagnoseJsxElement (mkNode b (JsxElement o children) fe gc) checker ds)
   <= S (warnings ds))%nat.
Proof.
  intros Hs Hm Hstart Hfile warnings. apply String.eqb_neq in Hs.
  rewrite diagnoseJsxElement_element, Hs, Hm, <- Hfile.
  assert (Hearly :
    (warnings (ds ++ [diagnostic (base marker) UnusedSafe Warning])%list
     <= S (warnings ds))%nat).
  { unfold warnings. rewrite filter_app, length_app. simpl.
    destruct (isUnusedSafeAt _ _); simpl; lia. }
  assert (Hloop :
    (warnings
       (fold_left
          (safeModeStep checker (base marker) (getSourceFile (base marker)))
          children ds)
     <= S (warnings ds))%nat).
  { apply (unusedSafe_at_most_once_after_one_space
             checker (base marker) children ds Hstart). }
  unfold safeMode.
  destruct children as [|[b' k' fe' gc'] [|exp' children]].
  - exact Hearly.
  - destruct k'; try exact Hloop. exact Hearly.
  - destruct k'; exact Hloop.
Qed.

Lemma safeMode_warns_once_witness :
  (List.length
     (filter (isUnusedSafeAt (base (Sample.safeMarker 1)))
        (diagnoseJsxElement Sample.divSafeOneSpace Sample.checker []))
   <= 1)%nat.
Proof.
  apply (@safeMode_warns_once
           (Sample.spanned "<div safe>{count}{total}</div>" 0 0)
           (mkOpening (Sample.identifier "div" 1) [Sample.safeMarker 1])
           [Sample.container "{count}" 10 (Sample.identifier "count" 11);
            Sample.container "{total}" 17 (Sample.identifier "total" 18)]
           (forEachChild Sample.divSafeOneSpace) []
           (Sample.safeMarker 1) Sample.checker []);
    [discriminate|reflexivity|reflexivity|reflexivity].
Defined.

(** X10. The generic scan only looks at the [JsxExpression] children
    that have an expression: an element without the [safe] attribute, or
    a fragment, whose children are texts, elements and empty containers
    gets no diagnostic. *)
Theorem genericScan_without_expressions (b : NodeBase) (k : Kind Node)
  (fe gc : list Node) (checker : TypeChecker) (ds : list Diagnostic) :
  match k with
  | JsxElement o children =>
      getSafeAttribute o = None
      /\ forallb (fun exp => negb (hasExpression exp)) children = true
  | JsxFragment children =>
      forallb (fun exp => negb (hasExpression exp)) children = true
  | _ => True
  end ->
  diagnoseJsxElement (mkNode b k fe gc) checker ds = ds.
Proof.
  assert (Hscan : forall ic children,
    forallb (fun exp => negb (hasExpression exp)) children = true ->
    lookForExpressions checker ic children ds = ds).
  { intros ic children Hall. unfold lookForExpressions.
    apply fold_left_id. intros ds' exp Hexp.
    rewrite forallb_forall in Hall. specialize (Hall exp Hexp).
    unfold hasExpression in Hall.
    destruct (kind exp) as [| |[e|]| | | | | | | ];
      try reflexivity; discriminate Hall. }
  destruct k as [o cs|cs|e| |e|l op r|c t f| | | ]; intros H;
    try reflexivity.
  - destruct H as [Hm Hall]. rewrite diagnoseJsxElement_element, Hm.
    destruct (String.eqb _ _); [reflexivity|]. apply Hscan, Hall.
  - rewrite diagnoseJsxElement_fragment. apply Hscan, H.
Qed.

Lemma genericScan_without_expressions_witness :
  diagnoseJsxElement More.divPlain Sample.checker [] = [].
Proof.
  apply (@genericScan_without_expressions
           (Sample.spanned "<div class='a'>hello{}</div>" 0 0)
           (kind More.divPlain) (forEachChild More.divPlain) []
           Sample.checker []).
  split; reflexivity.
Defined.

(** ** The oracle over the whole type *)

Section TypeInduction.

Variable P : Type_ -> Prop.
Hypothesis step :
  forall f a s u ts args,
    Forall P ts ->
    match args with Some l => Forall P l | None => True end ->
    P (mkType f a s u ts args).

Fixpoint Type_nested_ind (t : Type_) : P t :=
  match t with
  | mkType f a s u ts args =>
      let all :=
        fix all (l : list Type_) : Forall P l :=
          match l with
          | [] => Forall_nil P
          | x :: l' => Forall_cons x (Type_nested_ind x) (all l')
          end in
      @step f a s u ts args
        (all ts)
        (match args
           return match args with Some l => Forall P l | None => True end
         with
         | Some l => all l
         | None => I
         end)
  end.

End TypeInduction.

Lemma isSafeType_members (t : Type_) (e : Node) (c : TypeChecker) :
  hasFlag t TypeFlags.Any = false ->
  Forall (fun m => isSafeType m e c = true) (types t) ->
  match resolvedTypeArguments t with
  | Some l => Forall (fun m => isSafeType m e c = true) l
  | None => True
  end ->
  (isUnion t = false ->
   isArrayType c t || named (symbol t) "Promise" = false ->
   stringOrObjectShaped t = true -> textIsSafe (text e) = true) ->
  isSafeType t e c = true.
Proof.
  intros Hany Hts Hargs Hleaf.
  rewrite isSafeType_eq, Hany.
  destruct (aliasIs t "Element" "JSX" && isCallExpression e); [reflexivity|].
  destruct (aliasIs t "Children" "Html"); [reflexivity|].
  destruct (isUnion t) eqn:Eu.
  { apply forallb_forall. apply Forall_forall. exact Hts. }
  destruct (isArrayType c t || named (symbol t) "Promise") eqn:Ea.
  { destruct (resolvedTypeArguments t) as [[|x l]|]; try reflexivity.
    inversion Hargs. assumption. }
  specialize (Hleaf eq_refl eq_refl). unfold stringOrObjectShaped in Hleaf.
  destruct (hasFlag t TypeFlags.String), (hasFlag t TypeFlags.Object);
    try reflexivity; apply Hleaf; reflexivity.
Qed.

Lemma Forall_impl_forallb (p : Type_ -> bool) (Q : Type_ -> Prop)
  (l : list Type_) :
  Forall (fun m => p m = true -> Q m) l ->
  forallb p l = true -> Forall Q l.
Proof.
  intros Hall Hp. rewrite forallb_forall in Hp.
  rewrite Forall_forall in *. intros m Hm. apply (Hall m Hm), (Hp m Hm).
Qed.

(** X11. A text that starts with [safe], or that matches
    [ESCAPE_HTML_REGEX], makes the expression safe for every type in which
    the [any] flag does not occur: unions, arrays and promises of strings
    and objects included. *)
Theorem safe_text_is_safe_unless_any (type : Type_) (expression : Node)
  (checker : TypeChecker) :
  anyFree type = true ->
  textIsSafe (text expression) = true ->
  isSafeAttribute (Some type) expression checker = true.
Proof.
  intros Hfree Htext. cbn [isSafeAttribute]. revert Hfree.
  induction type as [f a s u ts args IHts IHargs] using Type_nested_ind.
  intros H. cbn [anyFree] in H.
  apply andb_true_iff in H as [Hany H]. apply andb_true_iff in H as [Hts Hargs].
  apply negb_true_iff in Hany.
  apply isSafeType_members.
  - exact Hany.
  - apply (Forall_impl_forallb _ _ IHts Hts).
  - cbn [resolvedTypeArguments]. destruct args as [l|]; [|exact I].
    apply (Forall_impl_forallb _ _ IHargs Hargs).
  - intros _ _ _. exact Htext.
Qed.

Lemma safe_text_is_safe_unless_any_witness :
  isSafeAttribute (Some More.promisedString) Sample.safeHtml Sample.checker
  = true.
Proof.
  apply (@safe_text_is_safe_unless_any
           More.promisedString Sample.safeHtml Sample.checker);
    reflexivity.
Defined.

(** X12. A type in which the [any] flag does not occur and in which
    every type that is not a union, an array or a [Promise] has neither
    the [String] nor the [Object] flag is safe for every expression:
    numbers and booleans, and the unions, arrays and promises of them. *)
Theorem textless_type_is_safe (type : Type_) (expression : Node)
  (checker : TypeChecker) :
  cannotCarryText checker type = true ->
  isSafeAttribute (Some type) expression checker = true.
Proof.
  cbn [isSafeAttribute].
  induction type as [f a s u ts args IHts IHargs] using Type_nested_ind.
  intros H. cbn [cannotCarryText] in H.
  apply andb_true_iff in H as [H Hsub]. apply andb_true_iff in H as [Hany Hleaf].
  apply andb_true_iff in Hsub as [Hts Hargs].
  apply negb_true_iff in Hany.
  apply isSafeType_members.
  - exact Hany.
  - apply (Forall_impl_forallb _ _ IHts Hts).
  - cbn [resolvedTypeArguments]. destruct args as [l|]; [|exact I].
    apply (Forall_impl_forallb _ _ IHargs Hargs).
  - intros Hu Ha Hshape. exfalso.
    rewrite Hu in Hleaf. cbn [orb] in Hleaf. rewrite Ha, Hshape in Hleaf.
    discriminate Hleaf.
Qed.

Lemma textless_type_is_safe_witness :
  isSafeAttribute (Some More.promisedList) (Sample.userInput 6)
    More.checker = true.
Proof.
  apply (@textless_type_is_safe
           More.promisedList (Sample.userInput 6) More.checker).
  reflexivity.
Defined.

(** X13. The oracle reads two things of the expression only: its text
    and whether it is a call. Two expressions that agree on both are
    classified alike for every type. *)
Theorem isSafeAttribute_reads_text_and_call (type : option Type_)
  (expression expression' : Node) (checker : TypeChecker) :
  text expression = text expression' ->
  isCallExpression expression = isCallExpression expression' ->
  isSafeAttribute type expression checker
  = isSafeAttribute type expression' checker.
Proof.
  intros Htext Hcall. destruct type as [type|]; [|reflexivity].
  cbn [isSafeAttribute].
  induction type as [f a s u ts args IHts IHargs] using Type_nested_ind.
  rewrite !isSafeType_eq, Htext, Hcall. cbn [types resolvedTypeArguments].
  destruct (hasFlag _ _); [reflexivity|].
  destruct (_ && _); [reflexivity|].
  destruct (aliasIs _ _ _); [reflexivity|].
  destruct (isUnion _).
  { clear IHargs. induction IHts as [|m ts Hm _ IH]; simpl.
    - reflexivity.
    - rewrite Hm, IH. reflexivity. }
  destruct (_ || _); [|reflexivity].
  destruct args as [[|m l]|]; try reflexivity.
  inversion IHargs. assumption.
Qed.

Lemma isSafeAttribute_reads_text_and_call_witness :
  isSafeAttribute (Some Sample.elementType) (Sample.userInput 6)
    Sample.checker
  = isSafeAttribute (Some Sample.elementType) (Sample.userInput 40)
      Sample.checker.
Proof.
  apply (@isSafeAttribute_reads_text_and_call
           (Some Sample.elementType) (Sample.userInput 6)
           (Sample.userInput 40) Sample.checker);
    reflexivity.
Defined.

(** X14. For an array or a [Promise] that no earlier rule decides, the
    answer is the answer for its first type argument; when there is no
    type argument the answer is that of a type that is not resolved:
    safe. *)
Theorem isSafeAttribute_array_or_promise (type : Type_) (expression : Node)
  (checker : TypeChecker) :
  reachesUnionRule type expression = true ->
  isUnion type = false ->
  isArrayType checker type || named (symbol type) "Promise" = true ->
  isSafeAttribute (Some type) expression checker
  = isSafeAttribute (firstTypeArgument type) expression checker
  /\ (firstTypeArgument type = None ->
      isSafeAttribute (Some type) expression checker = true).
Proof.
  intros Hr Hu Ha. apply reachesUnionRule_true in Hr as (Hany & Hj & Hc).
  assert (E :
    isSafeAttribute (Some type) expression checker
    = isSafeAttribute (firstTypeArgument type) expression checker).
  { cbn [isSafeAttribute]. rewrite isSafeType_eq, Hany, Hj, Hc, Hu, Ha.
    unfold firstTypeArgument.
    destruct (resolvedTypeArguments type) as [[|x l]|]; reflexivity. }
  split; [exact E|]. intros Hnone. rewrite E, Hnone. reflexivity.
Qed.

Lemma isSafeAttribute_array_or_promise_witness :
  isSafeAttribute (Some More.promisedString) (Sample.userInput 6)
    Sample.checker
  = isSafeAttribute (Some Sample.stringType) (Sample.userInput 6)
      Sample.checker.
Proof.
  destruct (@isSafeAttribute_array_or_promise
              More.promisedString (Sample.userInput 6) Sample.checker
              eq_refl eq_refl eq_refl) as [E _].
  exact E.
Defined.

(** X15. The two aliases: a type without the [any] flag whose alias is
    [Html.Children] is safe for every expression, and one whose alias is
    [JSX.Element] is safe for every call expression, whatever the type is
    made of. *)
Theorem isSafeAttribute_aliases (type : Type_) (expression : Node)
  (checker : TypeChecker) :
  hasFlag type TypeFlags.Any = false ->
  aliasIs type "Children" "Html" = true
  \/ (aliasIs type "Element" "JSX" = true
      /\ isCallExpression expression = true) ->
  isSafeAttribute (Some type) expression checker = true.
Proof.
  intros Hany H. cbn [isSafeAttribute]. rewrite isSafeType_eq, Hany.
  destruct H as [H|[H1 H2]].
  - rewrite H. destruct (_ && _); reflexivity.
  - rewrite H1, H2. reflexivity.
Qed.

Lemma isSafeAttribute_aliases_witness :
  isSafeAttribute (Some Sample.elementType) Sample.escapeHtmlCall
    Sample.checker = true
  /\ isSafeAttribute (Some Sample.elementType) (Sample.userInput 6)
       Sample.checker = false.
Proof.
  split; [|reflexivity].
  apply (@isSafeAttribute_aliases
           Sample.elementType Sample.escapeHtmlCall Sample.checker);
    [reflexivity|right; split; reflexivity].
Defined.

(** ** The texts that count as safe *)

Lemma toLower_facts (c : ascii) :
  Text.toLower (Text.toLower c) = Text.toLower c
  /\ Text.isWord (Text.toLower c) = Text.isWord c
  /\ Ascii.eqb (Text.toLower c) "."%char = Ascii.eqb c "."%char.
Proof.
  destruct c as [[|] [|] [|] [|] [|] [|] [|] [|]]; repeat split; reflexivity.
Qed.

Lemma prefix_ci_lowerCase (p s : string) :
  Text.prefix_ci p (Text.lowerCase s) = Text.prefix_ci p s.
Proof.
  revert s. induction p as [|a p IH]; intros s; [reflexivity|].
  destruct s as [|b s]; [reflexivity|]. cbn [Text.lowerCase Text.prefix_ci].
  destruct (toLower_facts b) as (-> & _). rewrite IH. reflexivity.
Qed.

Lemma spanWord_lowerCase (s : string) :
  Text.spanWord (Text.lowerCase s)
  = (Text.lowerCase (fst (Text.spanWord s)),
     Text.lowerCase (snd (Text.spanWord s))).
Proof.
  induction s as [|c s IH]; [reflexivity|].
  cbn [Text.lowerCase Text.spanWord].
  destruct (toLower_facts c) as (_ & -> & _).
  destruct (Text.isWord c).
  - rewrite IH. destruct (Text.spanWord s). reflexivity.
  - reflexivity.
Qed.

Lemma dot_then (A : Type) (y : ascii) (yes no : A) :
  match y with
  | "."%char => yes
  | _ => no
  end = if Ascii.eqb y "."%char then yes else no.
Proof.
  destruct y as [[|] [|] [|] [|] [|] [|] [|] [|]]; reflexivity.
Qed.

Lemma match_ESCAPE_HTML_REGEX_eq (s : string) :
  Text.match_ESCAPE_HTML_REGEX s
  = match fst (Text.spanWord s), snd (Text.spanWord s) with
    | String _ _, String y r =>
        if Ascii.eqb y "."%char then Text.prefix_ci "escapehtml" r else false
    | _, _ => false
    end
    || Text.prefix_ci "escapehtml" s.
Proof.
  unfold Text.match_ESCAPE_HTML_REGEX.
  destruct (Text.spanWord s) as [[|x w] [|y r]]; try reflexivity.
  cbn [fst snd]. rewrite <- dot_then. reflexivity.
Qed.

Lemma prefix_append (p s t : string) :
  String.prefix p s = true -> String.prefix p (s ++ t) = true.
Proof.
  revert s. induction p as [|a p IH]; intros s.
  - intros _. destruct (s ++ t); reflexivity.
  - destruct s as [|b s]; [discriminate|]. simpl.
    destruct (ascii_dec a b); [apply IH|discriminate].
Qed.

(** X16. Which texts count as safe depends on how the text starts and,
    for [ESCAPE_HTML_REGEX], not on the case of its letters: the pattern
    matches a text iff it matches the text in lower case, and a text that
    starts with [safe] or matches the pattern still does so with
    anything appended, as in [safeHtml.trim()] or [escapeHtml(x) + y]. *)
Theorem textIsSafe_by_its_start (s t : string) :
  Text.match_ESCAPE_HTML_REGEX (Text.lowerCase s)
  = Text.match_ESCAPE_HTML_REGEX s
  /\ (textIsSafe s = true -> textIsSafe (s ++ t) = true).
Proof.
  split.
  - rewrite !match_ESCAPE_HTML_REGEX_eq, spanWord_lowerCase,
      prefix_ci_lowerCase.
    cbn [fst snd]. f_equal.
    destruct (Text.spanWord s) as [[|x w] [|y r]]; try reflexivity.
    cbn [fst snd Text.lowerCase].
    destruct (toLower_facts y) as (_ & _ & ->).
    rewrite prefix_ci_lowerCase. reflexivity.
  - unfold textIsSafe, Text.startsWith. rewrite !orb_true_iff.
    intros [H|H].
    + left. apply prefix_append. exact H.
    + right. apply match_ESCAPE_HTML_REGEX_spec in H
        as (q & name & rest & -> & Hn & Hq).
      apply match_ESCAPE_HTML_REGEX_spec.
      exists q, name, (rest ++ t). rewrite !append_assoc.
      repeat split; assumption.
Qed.

Lemma textIsSafe_by_its_start_witness :
  textIsSafe "Html.escapeHtml(x).trim()" = true.
Proof.
  destruct (textIsSafe_by_its_start "Html.escapeHtml(x)" ".trim()")
    as [_ H].
  apply H. reflexivity.
Defined.

(** ** What [isComponent] changes *)

Lemma sameUpToComponent_app (a b x y : list Diagnostic) :
  sameUpToComponent a b -> sameUpToComponent x y ->
  sameUpToComponent (a ++ x) (b ++ y).
Proof.
  unfold sameUpToComponent. intros H1 H2. rewrite !map_app, H1, H2.
  reflexivity.
Qed.

Lemma sameUpToComponent_push (a b : list Diagnostic) (d : Diagnostic) :
  sameUpToComponent a b -> sameUpToComponent (a ++ [d]) (b ++ [d]).
Proof. intros H. apply sameUpToComponent_app; [exact H|reflexivity]. Qed.

Lemma sameUpToComponent_fold {A : Type}
  (f g : list Diagnostic -> A -> list Diagnostic) (l : list A) :
  (forall x a b, In x l -> sameUpToComponent a b ->
                 sameUpToComponent (f a x) (g b x)) ->
  forall a b, sameUpToComponent a b ->
              sameUpToComponent (fold_left f l a) (fold_left g l b).
Proof.
  induction l as [|x l IH]; intros H a b Hab; simpl.
  - exact Hab.
  - apply IH.
    + intros y a' b' Hy. apply H. right. exact Hy.
    + apply H; [left; reflexivity|exact Hab].
Qed.

Lemma alreadyWarned_upToComponent (ds ds' : list Diagnostic)
  (marker : NodeBase) (file_ : SourceFile) :
  sameUpToComponent ds ds' ->
  alreadyWarned ds marker file_ = alreadyWarned ds' marker file_.
Proof.
  unfold sameUpToComponent, alreadyWarned. revert ds'.
  induction ds as [|d ds IH]; intros [|d' ds'] H; try discriminate H.
  - reflexivity.
  - simpl in H. injection H as _ _ Hf _ Hs Hds. simpl.
    rewrite (IH ds' Hds), Hf, Hs. reflexivity.
Qed.

Lemma safeMode_upToComponent (checker : TypeChecker) (marker : NodeBase)
  (file_ : SourceFile) (children : list Node) (ds ds' : list Diagnostic) :
  sameUpToComponent ds ds' ->
  sameUpToComponent (safeMode checker marker file_ children ds)
    (safeMode checker marker file_ children ds').
Proof.
  intros H.
  assert (Hloop :
    sameUpToComponent
      (fold_left (safeModeStep checker marker file_) children ds)
      (fold_left (safeModeStep checker marker file_) children ds')).
  { apply sameUpToComponent_fold; [|exact H].
    intros exp a b _ Hab. unfold safeModeStep.
    rewrite (alreadyWarned_upToComponent marker file_ Hab).
    destruct (isJsxElement exp || usesEscapeHtml exp).
    - apply sameUpToComponent_push, Hab.
    - destruct (kind exp) as [| |[e|]| | | | | | | ]; try exact Hab.
      destruct (_ && _); [apply sameUpToComponent_push|]; exact Hab. }
  unfold safeMode.
  destruct children as [|[b k fe gc] [|exp' children]].
  - apply sameUpToComponent_push, H.
  - destruct k; try exact Hloop. apply sameUpToComponent_push, H.
  - destruct k; exact Hloop.
Qed.

Lemma diagnose_upToComponent (n : Node) :
  forall (checker : TypeChecker) (ds ds' : list Diagnostic),
    sameUpToComponent ds ds' ->
    sameUpToComponent (diagnoseJsxElement n checker ds)
      (diagnoseJsxElement n checker ds')
    /\ forall ic ic',
         sameUpToComponent (diagnoseReduced n checker ds ic)
           (diagnoseReduced n checker ds' ic').
Proof.
  induction n as [n IH] using reach_ind. intros checker ds ds' Hds.
  assert (Hexpr : forall e a b ic ic',
            (reach (unwrapParenthesis e) < reach n)%nat ->
            sameUpToComponent a b ->
            sameUpToComponent (diagnoseExpression e checker a ic)
              (diagnoseExpression e checker b ic')).
  { intros e a b ic ic' He Hab. rewrite !diagnoseExpression_reduced.
    apply (IH _ He checker a b Hab). }
  destruct n as [b k fe gc]. split.
  - assert (Hscan : forall ic cs,
              (forall exp, In exp cs ->
                 match k with
                 | JsxElement _ cs' | JsxFragment cs' => In exp cs'
                 | _ => False
                 end) ->
              sameUpToComponent (lookForExpressions checker ic cs ds)
                (lookForExpressions checker ic cs ds')).
    { intros ic cs Hcs. unfold lookForExpressions.
      apply sameUpToComponent_fold; [|exact Hds].
      intros exp x y Hexp Hxy.
      destruct (kind exp) as [| |[e|]| | | | | | | ] eqn:Ek; try exact Hxy.
      apply Hexpr; [|exact Hxy].
      apply (reach_child b k fe gc exp (Hcs exp Hexp) Ek). }
    destruct k as [o cs|cs|e| |e|l op r|c t f| | | ]; try exact Hds.
    + rewrite !diagnoseJsxElement_element.
      destruct (String.eqb _ _); [exact Hds|].
      destruct (getSafeAttribute o); [apply safeMode_upToComponent, Hds|].
      apply Hscan. intros exp H. exact H.
    + rewrite !diagnoseJsxElement_fragment.
      apply Hscan. intros exp H. exact H.
  - intros ic ic'.
    assert (Hcandidate :
      sameUpToComponent
        (if isSafeAttribute (getTypeAtLocation checker (mkNode b k fe gc))
              (mkNode b k fe gc) checker
         then ds
         else
           let st :=
             if isIdentifier (mkNode b k fe gc) then (false, ds)
             else fold_left (scanChildren checker) gc (false, ds) in
           if fst st then snd st
           else if ic || isJsxFragment (mkNode b k fe gc)
                then (snd st ++ [diagnostic b ComponentXss Error])%list
                else (snd st ++ [diagnostic b Xss Error])%list)
        (if isSafeAttribute (getTypeAtLocation checker (mkNode b k fe gc))
              (mkNode b k fe gc) checker
         then ds'
         else
           let st :=
             if isIdentifier (mkNode b k fe gc) then (false, ds')
             else fold_left (scanChildren checker) gc (false, ds') in
           if fst st then snd st
           else if ic' || isJsxFragment (mkNode b k fe gc)
                then (snd st ++ [diagnostic b ComponentXss Error])%list
                else (snd st ++ [diagnostic b Xss Error])%list)).
    { destruct (isSafeAttribute _ _ _); [exact Hds|]. cbv zeta.
      destruct (isIdentifier _).
      - cbn [fst snd].
        destruct (ic || _), (ic' || _);
          (apply sameUpToComponent_app; [exact Hds|reflexivity]).
      - rewrite !scanChildren_fold. cbn [fst snd orb].
        assert (Hfold :
          sameUpToComponent
            (fold_left (fun ds0 tag => diagnoseJsxElement tag checker ds0)
               (filter isJsx gc) ds)
            (fold_left (fun ds0 tag => diagnoseJsxElement tag checker ds0)
               (filter isJsx gc) ds')).
        { apply sameUpToComponent_fold; [|exact Hds].
          intros tag x y Htag Hxy. apply filter_In in Htag as [Htag _].
          apply IH; [|exact Hxy]. apply reach_In in Htag. simpl. lia. }
        destruct (existsb isJsx gc); [exact Hfold|].
        destruct (ic || _), (ic' || _);
          (apply sameUpToComponent_app; [exact Hfold|reflexivity]). }
    unfold diagnoseReduced. cbn [kind base getChildren].
    destruct k as [o cs|cs|e| |e|l op r|c t f| | | ];
      try exact Hcandidate; try exact Hds.
    + destruct (resultsInBoolean op); [exact Hds|].
      apply Hexpr; [|exact Hds].
      pose proof (reach_unwrapParenthesis r). simpl. lia.
    + apply Hexpr.
      * pose proof (reach_unwrapParenthesis f). simpl. lia.
      * apply Hexpr; [|exact Hds].
        pose proof (reach_unwrapParenthesis t). simpl. lia.
Qed.

(** X17. [isComponent] changes the key of diagnostics and nothing else:
    with the flag set or not, [diagnoseExpression] adds the same number
    of diagnostics at the same places with the same categories, and they
    differ at most in [ComponentXss] standing for [Xss]. *)
Theorem isComponent_changes_the_key_only (node : Node)
  (checker : TypeChecker) (diagnostics : list Diagnostic) :
  let asComponent := diagnoseExpression node checker diagnostics true in
  let asElement := diagnoseExpression node checker diagnostics false in
  map upToComponent asComponent = map upToComponent asElement
  /\ map anchor asComponent = map anchor asElement
  /\ List.length asComponent = List.length asElement.
Proof.
  cbv zeta.
  assert (H :
    map upToComponent (diagnoseExpression node checker diagnostics true)
    = map upToComponent (diagnoseExpression node checker diagnostics false)).
  { rewrite !diagnoseExpression_reduced.
    apply diagnose_upToComponent. reflexivity. }
  split; [exact H|]. split.
  - assert (Ha : forall l, map anchor l = map anchor (map upToComponent l)).
    { intros l. rewrite map_map. reflexivity. }
    rewrite Ha, H, <- Ha. reflexivity.
  - rewrite <- (length_map upToComponent), H, length_map. reflexivity.
Qed.
